(** * The NVIDIA device-plugin supervisor of HAMi (cmd/device-plugin/nvidia/main.go)

    A shallow embedding of [validateFlags], [loadConfig], [start],
    [startPlugins], [stopPlugins] and [disableResourceRenamingInConfig],
    together with the part of [main] that turns the result of [start] into
    the exit status of the process.

    Go values are modelled as follows.
    - An [error] interface value is an [option error]; [None] is [nil].
    - A pointer is an [option]; dereferencing [nil] panics.
    - A slice is an [option (list _)] where [nil] must be told apart from an
      empty slice (the configuration), and a [list] where it is only ranged
      over (the plugin list).
    - [int] and [time.Duration] are [Z].
    - Calls into other packages (the kubelet, the driver, the configuration
      library, the plugins themselves) are the fields of the class [Env];
      they act on an abstract outside world [W].
    - Everything observable that the program does (log lines, [Start] and
      [Stop] calls, closing the watcher) is appended to a trace. *)

From Stdlib Require Import String List ZArith Bool Lia.
Import ListNotations.

Local Open Scope string_scope.
Local Open Scope list_scope.
Local Open Scope Z_scope.

Set Implicit Arguments.
Set Warnings "-register-all".

(** ** Errors *)

(** Go [error] values that the program builds or receives.  [Errorf_v] and
    [Errorf_s] are [fmt.Errorf] with one [%v] argument that is an error,
    respectively a string; [Aggregate] is what [errorsutil.NewAggregate]
    returns when it does not return [nil]. *)
Inductive error : Type :=
| ErrExternal (msg : string)
| Errorf_v (format : string) (err : error)
| Errorf_s (format : string) (arg : string)
| Aggregate (errs : list error).

(** k8s.io/apimachinery/pkg/util/errors.NewAggregate: the [nil] entries of
    the list are dropped; the result is [nil] when nothing is left. *)
Fixpoint dropNil (errlist : list (option error)) : list error :=
  match errlist with
  | [] => []
  | None :: rest => dropNil rest
  | Some e :: rest => e :: dropNil rest
  end.

Definition NewAggregate (errlist : list (option error)) : option error :=
  match dropNil errlist with
  | [] => None
  | errs => Some (Aggregate errs)
  end.

(** ** Slices that may be nil *)

Definition slice (A : Type) : Type := option (list A).

Definition len {A : Type} (s : slice A) : Z :=
  match s with
  | None => 0
  | Some l => Z.of_nat (length l)
  end.

Definition elems {A : Type} (s : slice A) : list A :=
  match s with
  | None => []
  | Some l => l
  end.

(** ** The configuration tree (package api/config/v1, imported as [spec]) *)

Module spec.

Definition DeviceIDStrategyUUID : string := "uuid".
Definition DeviceIDStrategyIndex : string := "index".

Record Resource : Type := {
  Pattern : string;
  ResourceName : string
}.

Record Resources : Type := {
  GPUs : slice Resource;
  MIGs : slice Resource
}.

Record ReplicatedDevices : Type := {
  All : bool;
  Count : Z;
  List : slice string
}.

Record ReplicatedResource : Type := {
  Name : string;
  Rename : string;
  Devices : ReplicatedDevices;
  Replicas : Z
}.

Record TimeSlicing : Type := {
  RenameByDefault : bool;
  FailRequestsGreaterThanOne : bool;
  TSResources : slice ReplicatedResource
}.

Record Sharing : Type := {
  SharingTimeSlicing : TimeSlicing
}.

Record PluginCommandLineFlags : Type := {
  PassDeviceSpecs : option bool;
  DeviceListStrategy : option (list string);
  DeviceIDStrategy : option string;
  CDIAnnotationPrefix : option string;
  NvidiaCTKPath : option string;
  ContainerDriverRoot : option string
}.

Record GFDCommandLineFlags : Type := {
  Oneshot : option bool;
  NoTimestamp : option bool;
  SleepInterval : option Z;
  OutputFile : option string;
  MachineTypeFile : option string
}.

Record CommandLineFlags : Type := {
  MigStrategy : option string;
  FailOnInitError : option bool;
  NvidiaDriverRoot : option string;
  GDSEnabled : option bool;
  MOFEDEnabled : option bool;
  Plugin : option PluginCommandLineFlags;
  GFD : option GFDCommandLineFlags
}.

Record Config : Type := {
  Version : string;
  Flags : CommandLineFlags;
  ConfigResources : Resources;
  ConfigSharing : Sharing
}.

(** Field assignments. *)

Definition set_GFD (config : Config) (v : option GFDCommandLineFlags) : Config :=
  {| Version := Version config;
     Flags := {| MigStrategy := MigStrategy (Flags config);
                 FailOnInitError := FailOnInitError (Flags config);
                 NvidiaDriverRoot := NvidiaDriverRoot (Flags config);
                 GDSEnabled := GDSEnabled (Flags config);
                 MOFEDEnabled := MOFEDEnabled (Flags config);
                 Plugin := Plugin (Flags config);
                 GFD := v |};
     ConfigResources := ConfigResources config;
     ConfigSharing := ConfigSharing config |}.

Definition set_GPUs (config : Config) (v : slice Resource) : Config :=
  {| Version := Version config;
     Flags := Flags config;
     ConfigResources := {| GPUs := v; MIGs := MIGs (ConfigResources config) |};
     ConfigSharing := ConfigSharing config |}.

Definition set_MIGs (config : Config) (v : slice Resource) : Config :=
  {| Version := Version config;
     Flags := Flags config;
     ConfigResources := {| GPUs := GPUs (ConfigResources config); MIGs := v |};
     ConfigSharing := ConfigSharing config |}.

Definition set_TSResources (config : Config) (v : slice ReplicatedResource) : Config :=
  {| Version := Version config;
     Flags := Flags config;
     ConfigResources := ConfigResources config;
     ConfigSharing :=
       {| SharingTimeSlicing :=
            {| RenameByDefault := RenameByDefault (SharingTimeSlicing (ConfigSharing config));
               FailRequestsGreaterThanOne :=
                 FailRequestsGreaterThanOne (SharingTimeSlicing (ConfigSharing config));
               TSResources := v |} |} |}.

Definition set_Rename (r : ReplicatedResource) (v : string) : ReplicatedResource :=
  {| Name := Name r; Rename := v; Devices := Devices r; Replicas := Replicas r |}.

Definition set_Devices_All (r : ReplicatedResource) (v : bool) : ReplicatedResource :=
  {| Name := Name r; Rename := Rename r;
     Devices := {| All := v; Count := Count (Devices r); List := List (Devices r) |};
     Replicas := Replicas r |}.

Definition set_Devices_Count (r : ReplicatedResource) (v : Z) : ReplicatedResource :=
  {| Name := Name r; Rename := Rename r;
     Devices := {| All := All (Devices r); Count := v; List := List (Devices r) |};
     Replicas := Replicas r |}.

Definition set_Devices_List (r : ReplicatedResource) (v : slice string) : ReplicatedResource :=
  {| Name := Name r; Rename := Rename r;
     Devices := {| All := All (Devices r); Count := Count (Devices r); List := v |};
     Replicas := Replicas r |}.

End spec.

(** ** The collaborators *)

(** What the supervisor calls but does not define.  [W] is the state of
    everything outside the supervisor (kubelet, driver, files, the plugins'
    servers); a collaborator that has an effect takes the world and returns
    the new one.  A Go result pair [(value, error)] is a sum. *)
Class Env : Type := {
  W : Type;
  cli_Context : Type;
  cli_Flag : Type;
  DeviceConfig : Type;
  PluginManager : Type;
  (** plugin.Interface *)
  Plugin : Type;
  Devices : Plugin -> list string;
  Start : Plugin -> W -> option error * W;
  Stop : Plugin -> W -> option error * W;
  (** package spec *)
  NewConfig : cli_Context -> list cli_Flag -> W -> (spec.Config + error) * W;
  NewDeviceListStrategies : list string -> option error;
  DefaultSharedRename : string -> string;
  (** the rest of package main, package rm, encoding/json *)
  generateDeviceConfigFromNvidia :
    spec.Config -> cli_Context -> list cli_Flag -> W -> (DeviceConfig + error) * W;
  AddDefaultResourcesToConfig : DeviceConfig -> W -> (DeviceConfig * option error) * W;
  json_MarshalIndent : DeviceConfig -> string + error;
  NewPluginManager : DeviceConfig -> W -> (PluginManager + error) * W;
  GetPlugins : PluginManager -> W -> (list Plugin + error) * W;
  (** the watchers and the process environment *)
  os_Getenv_NodeName : W -> string;
  InitGlobalClient : W -> W;
  newFSWatcher : W -> option error * W;
  watcher_Close : W -> W;
  newOSWatcher : W -> W
}.

(** ** Observations and the monad of the program *)

Inductive severity : Type := Info | Warning | Error.

Inductive logarg : Type :=
| ArgString (s : string)
| ArgError (e : error).

Section Program.

Context {E : Env}.

Inductive obs : Type :=
| ObsLog (sev : severity) (format : string) (args : list logarg)
| ObsStart (p : Plugin)
| ObsStop (p : Plugin)
| ObsWatcherClose.

Record world : Type := {
  ext : W;
  trace : list obs
}.

(** The result of running a piece of Go code: a value, or a run-time panic. *)
Inductive res (A : Type) : Type :=
| Val (a : A)
| Panic (msg : string).

Arguments Panic {A} msg.

Definition M (A : Type) : Type := world -> res A * world.

Definition ret {A : Type} (a : A) : M A := fun w => (Val a, w).

Definition bind {A B : Type} (m : M A) (k : A -> M B) : M B :=
  fun w =>
    match m w with
    | (Val a, w') => k a w'
    | (Panic msg, w') => (Panic msg, w')
    end.

Notation "x <- m ;; k" := (bind m (fun x => k))
  (at level 61, m at next level, right associativity).
Notation "m ;;; k" := (bind m (fun _ => k))
  (at level 61, right associativity).

Definition panic {A : Type} (msg : string) : M A := fun w => (Panic msg, w).

(** A call of a collaborator. *)
Definition call {A : Type} (f : W -> A * W) : M A :=
  fun w => let (a, x) := f (ext w) in (Val a, {| ext := x; trace := trace w |}).

Definition emit (o : obs) : M unit :=
  fun w => (Val tt, {| ext := ext w; trace := trace w ++ [o] |}).

Definition klog (sev : severity) (format : string) (args : list logarg) : M unit :=
  emit (ObsLog sev format args).

(** [*p] *)
Definition deref {A : Type} (p : option A) : M A :=
  match p with
  | Some a => ret a
  | None => panic "invalid memory address or nil pointer dereference"
  end.

(** [p.Start()] and [p.Stop()], recorded in the trace. *)
Definition p_Start (p : Plugin) : M (option error) :=
  emit (ObsStart p) ;;; call (Start p).

Definition p_Stop (p : Plugin) : M (option error) :=
  emit (ObsStop p) ;;; call (Stop p).

(** ** validateFlags and loadConfig *)

Definition validateFlags (config : spec.Config) : M (option error) :=
  plugin <- deref (spec.Plugin (spec.Flags config)) ;;
  strategies <- deref (spec.DeviceListStrategy plugin) ;;
  match NewDeviceListStrategies strategies with
  | Some err => ret (Some (Errorf_v "invalid --device-list-strategy option: %v" err))
  | None =>
      id <- deref (spec.DeviceIDStrategy plugin) ;;
      if negb (id =? spec.DeviceIDStrategyUUID)%string
         && negb (id =? spec.DeviceIDStrategyIndex)%string
      then ret (Some (Errorf_s "invalid --device-id-strategy option: %v" id))
      else ret None
  end.

Definition loadConfig (c : cli_Context) (flags : list cli_Flag)
  : M (spec.Config + error) :=
  r <- call (NewConfig c flags) ;;
  match r with
  | inr err => ret (inr (Errorf_v "unable to finalize config: %v" err))
  | inl config =>
      err <- validateFlags config ;;
      match err with
      | Some err => ret (inr (Errorf_v "unable to validate flags: %v" err))
      | None => ret (inl (spec.set_GFD config None))
      end
  end.

(** ** disableResourceRenamingInConfig *)

(** The body of the loop over [config.Sharing.TimeSlicing.Resources]: [r]
    is the copy of the entry that [range] hands out, on which the three
    tests are made; [e] is the entry [Resources[i]] in the slice, which the
    assignments change. *)
Definition resourceBody (renameByDefault : bool) (r : spec.ReplicatedResource)
    (st : bool * bool) : spec.ReplicatedResource * (bool * bool) :=
  let '(setsNonDefaultRename, setsDevices) := st in
  let e := r in
  let '(setsNonDefaultRename, e) :=
    if negb renameByDefault && negb (spec.Rename r =? "")%string
    then (true, spec.set_Rename e "")
    else (setsNonDefaultRename, e) in
  let '(setsNonDefaultRename, e) :=
    if renameByDefault
       && negb (spec.Rename r =? DefaultSharedRename (spec.Name r))%string
    then (true, spec.set_Rename e (DefaultSharedRename (spec.Name r)))
    else (setsNonDefaultRename, e) in
  let '(setsDevices, e) :=
    if negb (spec.All (spec.Devices r))
    then (true,
          spec.set_Devices_List
            (spec.set_Devices_Count (spec.set_Devices_All e true) 0) None)
    else (setsDevices, e) in
  (e, (setsNonDefaultRename, setsDevices)).

Fixpoint resourcesLoop (renameByDefault : bool) (rs : list spec.ReplicatedResource)
    (st : bool * bool) : list spec.ReplicatedResource * (bool * bool) :=
  match rs with
  | [] => ([], st)
  | r :: rest =>
      let '(e, st1) := resourceBody renameByDefault r st in
      let '(rest', st2) := resourcesLoop renameByDefault rest st1 in
      (e :: rest', st2)
  end.

Definition disableResourceRenamingInConfig (config : spec.Config) : M spec.Config :=
  (if (len (spec.GPUs (spec.ConfigResources config)) >? 0)
      || (len (spec.MIGs (spec.ConfigResources config)) >? 0)
   then klog Info
          "Customizing the 'resources' field is not yet supported in the config. Ignoring..."
          []
   else ret tt) ;;;
  let config := spec.set_GPUs config None in
  let config := spec.set_MIGs config None in
  let renameByDefault :=
    spec.RenameByDefault (spec.SharingTimeSlicing (spec.ConfigSharing config)) in
  let '(config, (setsNonDefaultRename, setsDevices)) :=
    match spec.TSResources (spec.SharingTimeSlicing (spec.ConfigSharing config)) with
    | None => (config, (false, false))
    | Some rs =>
        let '(rs', st) := resourcesLoop renameByDefault rs (false, false) in
        (spec.set_TSResources config (Some rs'), st)
    end in
  (if setsNonDefaultRename
   then klog Warning
          "Setting the 'rename' field in sharing.timeSlicing.resources is not yet supported in the config. Ignoring..."
          []
   else ret tt) ;;;
  (if setsDevices
   then klog Warning
          "Customizing the 'devices' field in sharing.timeSlicing.resources is not yet supported in the config. Ignoring..."
          []
   else ret tt) ;;;
  ret config.

(** ** stopPlugins *)

Fixpoint stopLoop (plugins : list Plugin) (errs : list (option error))
  : M (list (option error)) :=
  match plugins with
  | [] => ret errs
  | p :: rest =>
      err <- p_Stop p ;;
      stopLoop rest (errs ++ [err])
  end.

Definition stopPlugins (plugins : list Plugin) : M (option error) :=
  klog Info "Stopping plugins." [] ;;;
  errs <- stopLoop plugins [] ;;
  ret (NewAggregate errs).

(** ** startPlugins *)

(** Go's [int] on the 64-bit platforms the plugin is built for. *)
Definition int_wrap (z : Z) : Z := (z + 2 ^ 63) mod 2 ^ 64 - 2 ^ 63.

(** The loop over the plugins.  [None]: the loop left the function through
    [return plugins, true, nil]; [Some started]: it ran to its end. *)
Fixpoint startLoop (plugins : list Plugin) (started : Z) : M (option Z) :=
  match plugins with
  | [] => ret (Some started)
  | p :: rest =>
      if Z.of_nat (length (Devices p)) =? 0
      then startLoop rest started
      else
        err <- p_Start p ;;
        match err with
        | Some _ =>
            klog Error
              "Could not contact Kubelet. Did you enable the device plugin feature gate?"
              [] ;;;
            klog Error
              "You can check the prerequisites at: https://github.com/NVIDIA/k8s-device-plugin#prerequisites"
              [] ;;;
            klog Error
              "You can learn how to set the runtime at: https://github.com/NVIDIA/k8s-device-plugin#quick-start"
              [] ;;;
            ret None
        | None => startLoop rest (int_wrap (started + 1))
        end
  end.

Definition startPlugins (c : cli_Context) (flags : list cli_Flag) (restarting : bool)
  : M (list Plugin * bool * option error) :=
  klog Info "Loading configuration." [] ;;;
  r <- loadConfig c flags ;;
  match r with
  | inr err => ret ([], false, Some (Errorf_v "unable to load config: %v" err))
  | inl config =>
  config <- disableResourceRenamingInConfig config ;;
  r <- call (generateDeviceConfigFromNvidia config c flags) ;;
  match r with
  | inr err =>
      klog Error "failed to load config file %s" [ArgError err] ;;;
      ret ([], false, Some err)
  | inl devConfig =>
  klog Info "Updating config with default resource matching patterns." [] ;;;
  r <- call (AddDefaultResourcesToConfig devConfig) ;;
  let '(devConfig, err) := r in
  match err with
  | Some err =>
      ret ([], false, Some (Errorf_v "unable to add default resources to config: %v" err))
  | None =>
  match json_MarshalIndent devConfig with
  | inr err => ret ([], false, Some (Errorf_v "failed to marshal config to JSON: %v" err))
  | inl configJSON =>
  klog Info "\nRunning with config:\n%v" [ArgString configJSON] ;;;
  klog Info "Retrieving plugins." [] ;;;
  r <- call (NewPluginManager devConfig) ;;
  match r with
  | inr err => ret ([], false, Some (Errorf_v "error creating plugin manager: %v" err))
  | inl pluginManager =>
  r <- call (GetPlugins pluginManager) ;;
  match r with
  | inr err => ret ([], false, Some (Errorf_v "error getting plugins: %v" err))
  | inl plugins =>
  r <- startLoop plugins 0 ;;
  match r with
  | None => ret (plugins, true, None)
  | Some started =>
      (if started =? 0
       then klog Info "No devices found. Waiting indefinitely." []
       else ret tt) ;;;
      ret (plugins, false, None)
  end end end end end end end.

(** ** start *)

Inductive signal : Type := SIGHUP | SIGINT | SIGTERM | SIGQUIT.

Definition signal_name (s : signal) : string :=
  match s with
  | SIGHUP => "hangup"
  | SIGINT => "interrupt"
  | SIGTERM => "terminated"
  | SIGQUIT => "quit"
  end.

(** A value of type [<-chan time.Time]: the zero value [nil], or the channel
    made by [time.After d], on which one value arrives, once; [received]
    tells whether the program has taken it. *)
Inductive timeChan : Type :=
| nilChan
| afterChan (d : Z) (received : bool).

(** The one-character string that holds a double quote. *)
Definition dquote : string := String (Ascii.ascii_of_nat 34) EmptyString.

Definition time_Second : Z := 1000000000.

Definition time_After (d : Z) : timeChan := afterChan d false.

Definition DevicePluginPath : string := "/var/lib/kubelet/device-plugins/".
Definition KubeletSocket : string := DevicePluginPath ++ "kubelet.sock".
Definition fsnotify_Create : Z := 1.

(** The local variables of [start] that live across the [goto]s. *)
Record vars : Type := {
  restarting : bool;
  restartTimeout : timeChan;
  plugins : list Plugin
}.

Definition set_restartTimeout (v : vars) (ch : timeChan) : vars :=
  {| restarting := restarting v; restartTimeout := ch; plugins := plugins v |}.

(** What the [select] statement receives: one constructor per [case]. *)
Inductive selected : Type :=
| FromRestartTimeout
| FromWatcherEvents (name : string) (op : Z)
| FromWatcherErrors (err : error)
| FromSigs (s : signal).

(** Where control goes next. *)
Inductive flow (A : Type) : Type :=
| Next (a : A)
| Return (err : option error).

Arguments Return {A} err.

(** From the label [restart] to the [for] statement. *)
Definition restartPass (c : cli_Context) (flags : list cli_Flag) (v : vars)
  : M (flow vars) :=
  err <- (if restarting v then stopPlugins (plugins v) else ret None) ;;
  match err with
  | Some err =>
      ret (Return (Some (Errorf_v "error stopping plugins from previous run: %v" err)))
  | None =>
  klog Info "Starting Plugins." [] ;;;
  r <- startPlugins c flags (restarting v) ;;
  let '(plugins, restartPlugins, err) := r in
  match err with
  | Some err => ret (Return (Some (Errorf_v "error starting plugins: %v" err)))
  | None =>
  restartTimeout <-
    (if restartPlugins : bool
     then klog Info "Failed to start one or more plugins. Retrying in 30s..." [] ;;;
          ret (time_After (30 * time_Second))
     else ret (restartTimeout v)) ;;
  ret (Next {| restarting := true;
               restartTimeout := restartTimeout;
               plugins := plugins |})
  end end.

(** From the label [exit] to the end of the function. *)
Definition exitPath (v : vars) : M (option error) :=
  err <- stopPlugins (plugins v) ;;
  match err with
  | Some err => ret (Some (Errorf_v "error stopping plugins: %v" err))
  | None => ret None
  end.

Inductive jump : Type :=
| Again
| GotoRestart
| GotoExit
| NotReady.

(** One round of the [select]: the case that [ev] names is taken.  The case
    of [restartTimeout] can be taken only when a value waits on that
    channel; a nil channel and a channel whose value was received never
    deliver, and the round is then [NotReady]: the program cannot get
    there. *)
Definition selectCase (v : vars) (ev : selected) : M (jump * vars) :=
  match ev with
  | FromRestartTimeout =>
      match restartTimeout v with
      | afterChan d false => ret (GotoRestart, set_restartTimeout v (afterChan d true))
      | _ => ret (NotReady, v)
      end
  | FromWatcherEvents name op =>
      if (name =? KubeletSocket)%string && (Z.land op fsnotify_Create =? fsnotify_Create)
      then klog Info "inotify: %s created, restarting." [ArgString KubeletSocket] ;;;
           ret (GotoRestart, v)
      else ret (Again, v)
  | FromWatcherErrors err =>
      klog Error "inotify: %s" [ArgError err] ;;;
      ret (Again, v)
  | FromSigs s =>
      match s with
      | SIGHUP =>
          klog Info "Received SIGHUP, restarting." [] ;;;
          ret (GotoRestart, v)
      | _ =>
          klog Info ("Received signal " ++ dquote ++ "%v" ++ dquote ++ ", shutting down.")
            [ArgString (signal_name s)] ;;;
          ret (GotoExit, v)
      end
  end.

(** How a run of [start] stands after a finite schedule of receptions. *)
Inductive outcome : Type :=
| Returned (err : option error)
| Waiting (v : vars)
| Unreachable.

(** The [for] loop, along the receptions of [schedule]. *)
Fixpoint forLoop (c : cli_Context) (flags : list cli_Flag) (schedule : list selected)
    (v : vars) : M outcome :=
  match schedule with
  | [] => ret (Waiting v)
  | ev :: rest =>
      r <- selectCase v ev ;;
      let '(j, v) := r in
      match j with
      | Again => forLoop c flags rest v
      | GotoRestart =>
          r <- restartPass c flags v ;;
          match r with
          | Return err => ret (Returned err)
          | Next v => forLoop c flags rest v
          end
      | GotoExit =>
          err <- exitPath v ;;
          ret (Returned err)
      | NotReady => ret Unreachable
      end
  end.

(** [defer watcher.Close()]: runs when [start] returns or panics, not while
    it still waits in the [select]. *)
Definition deferClose (m : M outcome) : M outcome :=
  fun w =>
    let close w := {| ext := watcher_Close (ext w); trace := trace w ++ [ObsWatcherClose] |} in
    match m w with
    | (Val (Returned err), w') => (Val (Returned err), close w')
    | (Val o, w') => (Val o, w')
    | (Panic msg, w') => (Panic msg, close w')
    end.

Definition start (c : cli_Context) (flags : list cli_Flag) (schedule : list selected)
  : M outcome :=
  klog Info "Starting FS watcher." [] ;;;
  nodeName <- call (fun x => (os_Getenv_NodeName x, x)) ;;
  call (fun x => (tt, InitGlobalClient x)) ;;;
  err <- call newFSWatcher ;;
  match err with
  | Some err => ret (Returned (Some (Errorf_v "failed to create FS watcher: %v" err)))
  | None =>
  deferClose (
    klog Info "Start working on node %s" [ArgString nodeName] ;;;
    klog Info "Starting OS watcher." [] ;;;
    call (fun x => (tt, newOSWatcher x)) ;;;
    r <- restartPass c flags {| restarting := false; restartTimeout := nilChan; plugins := [] |} ;;
    match r with
    | Return err => ret (Returned err)
    | Next v => forLoop c flags schedule v
    end)
  end.

(** ** main: the exit status *)

(** The end of [main], with [c.Run] taken to have parsed the command line
    and run the action [start]: status 1 through [os.Exit(1)] when [start]
    returns an error, 0 when [main] returns, 2 when the run panics; no
    status while [start] is still waiting. *)
Definition main (c : cli_Context) (flags : list cli_Flag) (schedule : list selected)
  : world -> option Z * world :=
  fun w =>
    match start c flags schedule w with
    | (Val (Returned None), w') => (Some 0, w')
    | (Val (Returned (Some err)), w') =>
        (Some 1, snd (klog Error "%v" [ArgError err] w'))
    | (Val _, w') => (None, w')
    | (Panic _, w') => (Some 2, w')
    end.

(** ** Parts of the functions above, and what a trace says *)

(** [startPlugins] up to and including [pluginManager.GetPlugins()]: the
    plugin list that the pass constructs, or the error that [startPlugins]
    returns before it starts anything. *)
Definition constructPlugins (c : cli_Context) (flags : list cli_Flag)
  : M (list Plugin + error) :=
  klog Info "Loading configuration." [] ;;;
  r <- loadConfig c flags ;;
  match r with
  | inr err => ret (inr (Errorf_v "unable to load config: %v" err))
  | inl config =>
  config <- disableResourceRenamingInConfig config ;;
  r <- call (generateDeviceConfigFromNvidia config c flags) ;;
  match r with
  | inr err =>
      klog Error "failed to load config file %s" [ArgError err] ;;;
      ret (inr err)
  | inl devConfig =>
  klog Info "Updating config with default resource matching patterns." [] ;;;
  r <- call (AddDefaultResourcesToConfig devConfig) ;;
  let '(devConfig, err) := r in
  match err with
  | Some err => ret (inr (Errorf_v "unable to add default resources to config: %v" err))
  | None =>
  match json_MarshalIndent devConfig with
  | inr err => ret (inr (Errorf_v "failed to marshal config to JSON: %v" err))
  | inl configJSON =>
  klog Info "\nRunning with config:\n%v" [ArgString configJSON] ;;;
  klog Info "Retrieving plugins." [] ;;;
  r <- call (NewPluginManager devConfig) ;;
  match r with
  | inr err => ret (inr (Errorf_v "error creating plugin manager: %v" err))
  | inl pluginManager =>
  r <- call (GetPlugins pluginManager) ;;
  match r with
  | inr err => ret (inr (Errorf_v "error getting plugins: %v" err))
  | inl plugins => ret (inl plugins)
  end end end end end end.

(** The rest of [startPlugins], on the constructed list. *)
Definition startConstructed (plugins : list Plugin)
  : M (list Plugin * bool * option error) :=
  r <- startLoop plugins 0 ;;
  match r with
  | None => ret (plugins, true, None)
  | Some started =>
      (if started =? 0
       then klog Info "No devices found. Waiting indefinitely." []
       else ret tt) ;;;
      ret (plugins, false, None)
  end.

(** The first statement after the label [restart]. *)
Definition stopPrevious (v : vars) : M (option error) :=
  if restarting v then stopPlugins (plugins v) else ret None.

(** The rest of the pass, from [klog.Info("Starting Plugins.")] to
    [restarting = true]. *)
Definition startPass (c : cli_Context) (flags : list cli_Flag) (v : vars)
  : M (flow vars) :=
  klog Info "Starting Plugins." [] ;;;
  r <- startPlugins c flags (restarting v) ;;
  let '(plugins, restartPlugins, err) := r in
  match err with
  | Some err => ret (Return (Some (Errorf_v "error starting plugins: %v" err)))
  | None =>
  restartTimeout <-
    (if restartPlugins : bool
     then klog Info "Failed to start one or more plugins. Retrying in 30s..." [] ;;;
          ret (time_After (30 * time_Second))
     else ret (restartTimeout v)) ;;
  ret (Next {| restarting := true;
               restartTimeout := restartTimeout;
               plugins := plugins |})
  end.

(** The world with more observations. *)
Definition record (w : world) (tr : list obs) : world :=
  {| ext := ext w; trace := trace w ++ tr |}.

(** A computation that only adds to the trace. *)
Definition grows {A : Type} (m : M A) : Prop :=
  forall w, exists tr, trace (snd (m w)) = trace w ++ tr.

(** The log line of a pass in which a plugin failed to start. *)
Definition retryNotice : obs :=
  ObsLog Info "Failed to start one or more plugins. Retrying in 30s..." [].

(** [armedIn tr ch]: the channel [ch] is nil, or it is a channel made by
    [time.After(30 * time.Second)] and the trace [tr] has the log line of a
    pass in which a plugin failed to start. *)
Definition armedIn (tr : list obs) (ch : timeChan) : Prop :=
  ch = nilChan \/
  exists received, ch = afterChan (30 * time_Second) received /\ In retryNotice tr.

(** The variables and the world of a run that began with the trace [t0]:
    the trace has grown, and the timer channel is [armedIn] what was added. *)
Definition sinceStart (t0 : list obs) (v : vars) (w : world) : Prop :=
  exists tr, trace w = t0 ++ tr /\ armedIn tr (restartTimeout v).

(** The variables of [start] when it first reaches the label [restart]. *)
Definition vars0 : vars :=
  {| restarting := false; restartTimeout := nilChan; plugins := [] |}.

(** The plugins on which [Start], respectively [Stop], was called, in the
    order of the calls. *)
Fixpoint startCalls (tr : list obs) : list Plugin :=
  match tr with
  | [] => []
  | ObsStart p :: rest => p :: startCalls rest
  | _ :: rest => startCalls rest
  end.

Fixpoint stopCalls (tr : list obs) : list Plugin :=
  match tr with
  | [] => []
  | ObsStop p :: rest => p :: stopCalls rest
  | _ :: rest => stopCalls rest
  end.

(** The log lines of a trace, with their severity. *)
Fixpoint logLines (tr : list obs) : list (severity * string) :=
  match tr with
  | [] => []
  | ObsLog sev format _ :: rest => (sev, format) :: logLines rest
  | _ :: rest => logLines rest
  end.

(** Calling [Stop] on each plugin of a list in turn: the results of the
    calls, and the world after the last one. *)
Fixpoint stopResults (plugins : list Plugin) (x : W) : list (option error) * W :=
  match plugins with
  | [] => ([], x)
  | p :: rest =>
      let (err, x1) := Stop p x in
      let (errs, x2) := stopResults rest x1 in
      (err :: errs, x2)
  end.

Definition hasDevices (p : Plugin) : bool :=
  negb (Z.of_nat (length (Devices p)) =? 0).

(** [startsOK ps x x']: from the world [x], every plugin of [ps] that has a
    device starts without error, in turn, and the world is then [x']. *)
Inductive startsOK : list Plugin -> W -> W -> Prop :=
| startsOK_nil : forall x, startsOK [] x x
| startsOK_skip : forall p ps x x',
    hasDevices p = false -> startsOK ps x x' -> startsOK (p :: ps) x x'
| startsOK_start : forall p ps x x1 x',
    hasDevices p = true -> Start p x = (None, x1) -> startsOK ps x1 x' ->
    startsOK (p :: ps) x x'.

(** What the loop of [disableResourceRenamingInConfig] finds to correct in
    an entry: a rename that is not the one the policy gives, a device
    selection that is not [all]. *)
Definition defaultRename (renameByDefault : bool) (r : spec.ReplicatedResource) : string :=
  if renameByDefault then DefaultSharedRename (spec.Name r) else "".

Definition renameCustomised (renameByDefault : bool) (r : spec.ReplicatedResource) : bool :=
  negb (spec.Rename r =? defaultRename renameByDefault r)%string.

Definition devicesCustomised (r : spec.ReplicatedResource) : bool :=
  negb (spec.All (spec.Devices r)).

(** [normalised renameByDefault r r']: the entry [r'] is the entry [r] with
    the policy's rename, with [Devices.All] set, and with [Devices.Count]
    and [Devices.List] cleared when [r] did not have [Devices.All] set and
    kept as they were when it had. *)
Definition normalised (renameByDefault : bool) (r r' : spec.ReplicatedResource) : Prop :=
  spec.Name r' = spec.Name r /\
  spec.Replicas r' = spec.Replicas r /\
  spec.Rename r' = defaultRename renameByDefault r /\
  spec.All (spec.Devices r') = true /\
  (spec.All (spec.Devices r) = false ->
   spec.Count (spec.Devices r') = 0 /\ spec.List (spec.Devices r') = None) /\
  (spec.All (spec.Devices r) = true ->
   spec.Count (spec.Devices r') = spec.Count (spec.Devices r) /\
   spec.List (spec.Devices r') = spec.List (spec.Devices r)).

(** The log lines of [disableResourceRenamingInConfig] on a configuration. *)
Definition resourcesNotice (config : spec.Config) : list obs :=
  if (len (spec.GPUs (spec.ConfigResources config)) >? 0)
     || (len (spec.MIGs (spec.ConfigResources config)) >? 0)
  then [ObsLog Info
          "Customizing the 'resources' field is not yet supported in the config. Ignoring..."
          []]
  else [].

Definition renameWarning (config : spec.Config) : list obs :=
  let ts := spec.SharingTimeSlicing (spec.ConfigSharing config) in
  if existsb (renameCustomised (spec.RenameByDefault ts)) (elems (spec.TSResources ts))
  then [ObsLog Warning
          "Setting the 'rename' field in sharing.timeSlicing.resources is not yet supported in the config. Ignoring..."
          []]
  else [].

Definition devicesWarning (config : spec.Config) : list obs :=
  let ts := spec.SharingTimeSlicing (spec.ConfigSharing config) in
  if existsb devicesCustomised (elems (spec.TSResources ts))
  then [ObsLog Warning
          "Customizing the 'devices' field in sharing.timeSlicing.resources is not yet supported in the config. Ignoring..."
          []]
  else [].

(** ** What a run does apart from logging *)

(** The kinds of observation. *)
Definition isLog (o : obs) : Prop :=
  match o with ObsLog _ _ _ => True | _ => False end.

Definition startOrLog (o : obs) : Prop :=
  match o with ObsLog _ _ _ | ObsStart _ => True | _ => False end.

Definition stopOrLog (o : obs) : Prop :=
  match o with ObsLog _ _ _ | ObsStop _ => True | _ => False end.

Definition notClose (o : obs) : Prop :=
  match o with ObsWatcherClose => False | _ => True end.

(** A trace without its log lines. *)
Fixpoint effects (tr : list obs) : list obs :=
  match tr with
  | [] => []
  | ObsLog _ _ _ :: rest => effects rest
  | o :: rest => o :: effects rest
  end.

(** [runs P m]: what [m] returns, the world it leaves and the observations
    it adds depend on the outside world only, not on the trace so far, and
    every observation it adds satisfies [P]. *)
Definition runs (P : obs -> Prop) {A : Type} (m : M A) : Prop :=
  forall x, exists r x' tr,
    Forall P tr /\
    forall t, m {| ext := x; trace := t |} = (r, {| ext := x'; trace := t ++ tr |}).

(** Two worlds with the same outside world and the same observations apart
    from log lines. *)
Definition sameEffects (a b : world) : Prop :=
  ext a = ext b /\ effects (trace a) = effects (trace b).

(** What a reception asks of the loop of [start], if anything: the three
    ways out of the [select] that are not a new round. *)
Inductive trigger : Type := TimerFired | RestartWanted | ExitWanted.

Definition triggerOf (ev : selected) : option trigger :=
  match ev with
  | FromRestartTimeout => Some TimerFired
  | FromWatcherEvents name op =>
      if (name =? KubeletSocket)%string && (Z.land op fsnotify_Create =? fsnotify_Create)
      then Some RestartWanted
      else None
  | FromWatcherErrors _ => None
  | FromSigs SIGHUP => Some RestartWanted
  | FromSigs _ => Some ExitWanted
  end.

Fixpoint triggers (schedule : list selected) : list trigger :=
  match schedule with
  | [] => []
  | ev :: rest =>
      match triggerOf ev with
      | Some k => k :: triggers rest
      | None => triggers rest
      end
  end.

(** One reception for each trigger. *)
Definition canonical (k : trigger) : selected :=
  match k with
  | TimerFired => FromRestartTimeout
  | RestartWanted => FromSigs SIGHUP
  | ExitWanted => FromSigs SIGINT
  end.

(** The log line of a pass in which no plugin was started. *)
Definition noDevicesNotice : obs :=
  ObsLog Info "No devices found. Waiting indefinitely." [].

End Program.

Arguments Panic {A} msg.
Arguments Return {A} err.

(** ** A concrete set of collaborators

    A small, fully computable [Env], used to run the program on concrete
    inputs.  The command line is the configuration that [NewConfig] returns;
    a plugin carries what its [Devices], [Start] and [Stop] return; the
    world is the list of the plugin sets that the plugin manager finds on
    the successive passes. *)

Module Sim.

Record plugin : Type := {
  name : string;
  devices : list string;
  startErr : option error;
  stopErr : option error
}.

Definition deviceListStrategies : list string :=
  ["envvar"; "volume-mounts"; "cdi-annotations"].

Fixpoint memb (s : string) (l : list string) : bool :=
  match l with
  | [] => false
  | x :: rest => (s =? x)%string || memb s rest
  end.

Fixpoint newDeviceListStrategies (strategies : list string) : option error :=
  match strategies with
  | [] => None
  | s :: rest =>
      if memb s deviceListStrategies
      then newDeviceListStrategies rest
      else Some (Errorf_s "invalid strategy: %v" s)
  end.

Definition getPlugins (_ : unit) (x : list (list plugin))
  : (list plugin + error) * list (list plugin) :=
  match x with
  | [] => (inl [], [])
  | ps :: rest => (inl ps, rest)
  end.

#[export] Instance env : Env := {|
  W := list (list plugin);
  cli_Context := spec.Config;
  cli_Flag := string;
  DeviceConfig := spec.Config;
  PluginManager := unit;
  Plugin := plugin;
  Devices := devices;
  Start := fun p x => (startErr p, x);
  Stop := fun p x => (stopErr p, x);
  NewConfig := fun c _ x => (inl c, x);
  NewDeviceListStrategies := newDeviceListStrategies;
  DefaultSharedRename := fun n => (n ++ ".shared")%string;
  generateDeviceConfigFromNvidia := fun config _ _ x => (inl config, x);
  AddDefaultResourcesToConfig := fun d x => ((d, None), x);
  json_MarshalIndent := fun _ => inl "{}"%string;
  NewPluginManager := fun _ x => (inl tt, x);
  GetPlugins := getPlugins;
  os_Getenv_NodeName := fun _ => "node-1"%string;
  InitGlobalClient := fun x => x;
  newFSWatcher := fun x => (None, x);
  watcher_Close := fun x => x;
  newOSWatcher := fun x => x
|}.

Definition pluginFlags (strategies : list string) (id : string)
  : spec.PluginCommandLineFlags :=
  {| spec.PassDeviceSpecs := Some false;
     spec.DeviceListStrategy := Some strategies;
     spec.DeviceIDStrategy := Some id;
     spec.CDIAnnotationPrefix := Some "cdi.k8s.io/"%string;
     spec.NvidiaCTKPath := Some "/usr/bin/nvidia-ctk"%string;
     spec.ContainerDriverRoot := Some "/driver-root"%string |}.

Definition gfdFlags : spec.GFDCommandLineFlags :=
  {| spec.Oneshot := Some false;
     spec.NoTimestamp := Some false;
     spec.SleepInterval := Some (60 * 1000000000);
     spec.OutputFile := Some "/etc/kubernetes/node-feature-discovery/features.d/gfd"%string;
     spec.MachineTypeFile := Some "/sys/class/dmi/id/product_name"%string |}.

(** A configuration as the flags of [main] and a configuration file give it. *)
Definition config (strategies : list string) (id : string)
    (renameByDefault : bool) (resources : slice spec.ReplicatedResource)
  : spec.Config :=
  {| spec.Version := "v1"%string;
     spec.Flags :=
       {| spec.MigStrategy := Some "none"%string;
          spec.FailOnInitError := Some true;
          spec.NvidiaDriverRoot := Some "/"%string;
          spec.GDSEnabled := Some false;
          spec.MOFEDEnabled := Some false;
          spec.Plugin := Some (pluginFlags strategies id);
          spec.GFD := Some gfdFlags |};
     spec.ConfigResources := {| spec.GPUs := None; spec.MIGs := None |};
     spec.ConfigSharing :=
       {| spec.SharingTimeSlicing :=
            {| spec.RenameByDefault := renameByDefault;
               spec.FailRequestsGreaterThanOne := false;
               spec.TSResources := resources |} |} |}.

Definition defaultConfig : spec.Config := config ["envvar"%string] "uuid" false None.

Definition world0 (passes : list (list plugin)) : world :=
  {| ext := passes; trace := [] |}.

Definition healthy (n : string) : plugin :=
  {| name := n; devices := ["GPU-0"%string]; startErr := None; stopErr := None |}.

Definition failsToStart (n : string) : plugin :=
  {| name := n; devices := ["GPU-0"%string];
     startErr := Some (ErrExternal "kubelet unreachable"); stopErr := None |}.

Definition failsToStop (n : string) : plugin :=
  {| name := n; devices := ["GPU-0"%string];
     startErr := None; stopErr := Some (ErrExternal "socket busy") |}.

Definition noDevices (n : string) : plugin :=
  {| name := n; devices := []; startErr := None; stopErr := None |}.

(** The variables of [start], over these collaborators. *)
Definition state (r : bool) (ch : timeChan) (ps : list plugin) : @vars env :=
  @Build_vars env r ch ps.

(** An entry of [sharing.timeSlicing.resources] that has [Devices.All] set
    together with a count and a list. *)
Definition allWithCount : spec.ReplicatedResource :=
  {| spec.Name := "nvidia.com/gpu"%string;
     spec.Rename := ""%string;
     spec.Devices := {| spec.All := true; spec.Count := 5;
                        spec.List := Some ["GPU-0"%string] |};
     spec.Replicas := 2 |}.

End Sim.

(** * Properties *)

Section Properties.

Context {E : Env}.

Ltac run :=
  unfold bind, ret, klog, emit, call, panic, deref in *; simpl in *.

(** ** Traces *)

Lemma world_eta (w : world) : {| ext := ext w; trace := trace w |} = w.
Proof. destruct w; reflexivity. Qed.

Lemma stopCalls_app (a b : list obs) : stopCalls (a ++ b) = stopCalls a ++ stopCalls b.
Proof.
  induction a as [|o a IH]; simpl; [reflexivity|].
  destruct o; simpl; rewrite IH; reflexivity.
Qed.

Lemma startCalls_app (a b : list obs) : startCalls (a ++ b) = startCalls a ++ startCalls b.
Proof.
  induction a as [|o a IH]; simpl; [reflexivity|].
  destruct o; simpl; rewrite IH; reflexivity.
Qed.

Lemma stopCalls_stops (ps : list Plugin) : stopCalls (map ObsStop ps) = ps.
Proof. induction ps as [|p ps IH]; simpl; congruence. Qed.

Lemma startCalls_stops (ps : list Plugin) : startCalls (map ObsStop ps) = [].
Proof. induction ps as [|p ps IH]; simpl; congruence. Qed.

Lemma startCalls_starts (ps : list Plugin) : startCalls (map ObsStart ps) = ps.
Proof. induction ps as [|p ps IH]; simpl; congruence. Qed.

Lemma stopCalls_starts (ps : list Plugin) : stopCalls (map ObsStart ps) = [].
Proof. induction ps as [|p ps IH]; simpl; congruence. Qed.

(** ** NewAggregate *)

Lemma dropNil_nil_iff (errs : list (option error)) :
  dropNil errs = [] <-> Forall (fun err => err = None) errs.
Proof.
  induction errs as [|e errs IH]; simpl.
  - split; intros; [constructor | reflexivity].
  - destruct e as [e|].
    + split; intros H; [discriminate | inversion H; discriminate].
    + rewrite IH. split; intros H; [constructor; auto | inversion H; assumption].
Qed.

Lemma NewAggregate_nil_iff (errs : list (option error)) :
  NewAggregate errs = None <-> Forall (fun err => err = None) errs.
Proof.
  rewrite <- dropNil_nil_iff. unfold NewAggregate.
  destruct (dropNil errs); split; intros H; congruence.
Qed.

(** ** stopPlugins *)

Lemma stopResults_length (ps : list Plugin) (x : W) :
  length (fst (stopResults ps x)) = length ps.
Proof.
  revert x; induction ps as [|p ps IH]; intros x; simpl; [reflexivity|].
  destruct (Stop p x) as [err x1]. specialize (IH x1).
  destruct (stopResults ps x1); simpl in *; congruence.
Qed.

Lemma stopLoop_run (ps : list Plugin) :
  forall errs w,
    stopLoop ps errs w =
    (Val (errs ++ fst (stopResults ps (ext w))),
     {| ext := snd (stopResults ps (ext w)); trace := trace w ++ map ObsStop ps |}).
Proof.
  induction ps as [|p ps IH]; intros errs w; simpl.
  - unfold ret. rewrite !app_nil_r, world_eta. reflexivity.
  - unfold p_Stop. run. destruct (Stop p (ext w)) as [err x1].
    rewrite IH. simpl. destruct (stopResults ps x1) as [rest x2]. simpl.
    rewrite <- !app_assoc. reflexivity.
Qed.

Lemma stopPlugins_run (ps : list Plugin) (w : world) :
  stopPlugins ps w =
  (Val (NewAggregate (fst (stopResults ps (ext w)))),
   {| ext := snd (stopResults ps (ext w));
      trace := trace w ++ ObsLog Info "Stopping plugins." [] :: map ObsStop ps |}).
Proof.
  unfold stopPlugins. run. rewrite stopLoop_run. simpl.
  rewrite <- app_assoc. reflexivity.
Qed.

(** C9. [stopPlugins] calls [Stop] once on every plugin of its list, in
    the order of the list, whatever the earlier calls returned, and nothing
    else but one log line; what it returns is the aggregate of the results
    of these calls, which is [nil] exactly when every call returned [nil]. *)
Theorem stopPlugins_stops_every_plugin (plugins : list Plugin) (w : world) :
  exists w',
    stopPlugins plugins w =
      (Val (NewAggregate (fst (stopResults plugins (ext w)))), w') /\
    trace w' = trace w ++ ObsLog Info "Stopping plugins." [] :: map ObsStop plugins /\
    stopCalls (trace w') = stopCalls (trace w) ++ plugins /\
    startCalls (trace w') = startCalls (trace w) /\
    ext w' = snd (stopResults plugins (ext w)) /\
    length (fst (stopResults plugins (ext w))) = length plugins /\
    (NewAggregate (fst (stopResults plugins (ext w))) = None <->
     Forall (fun err => err = None) (fst (stopResults plugins (ext w)))).
Proof.
  eexists. split; [apply stopPlugins_run|]. simpl.
  repeat split.
  - rewrite stopCalls_app. simpl. rewrite stopCalls_stops. reflexivity.
  - rewrite startCalls_app. simpl. rewrite startCalls_stops, app_nil_r. reflexivity.
  - apply stopResults_length.
  - apply NewAggregate_nil_iff.
  - apply NewAggregate_nil_iff.
Qed.

(** ** validateFlags and loadConfig *)

Lemma validateFlags_world (config : spec.Config) (w : world) :
  snd (validateFlags config w) = w.
Proof.
  unfold validateFlags. run.
  destruct (spec.Plugin (spec.Flags config)) as [plugin|]; simpl; [|reflexivity].
  destruct (spec.DeviceListStrategy plugin) as [strategies|]; simpl; [|reflexivity].
  destruct (NewDeviceListStrategies strategies); simpl; [reflexivity|].
  destruct (spec.DeviceIDStrategy plugin) as [id|]; simpl; [|reflexivity].
  destruct (negb (id =? spec.DeviceIDStrategyUUID)%string
            && negb (id =? spec.DeviceIDStrategyIndex)%string); reflexivity.
Qed.

Lemma validateFlags_run (config : spec.Config) (plugin : spec.PluginCommandLineFlags)
    (strategies : list string) (id : string) (w : world) :
  spec.Plugin (spec.Flags config) = Some plugin ->
  spec.DeviceListStrategy plugin = Some strategies ->
  spec.DeviceIDStrategy plugin = Some id ->
  validateFlags config w =
  (Val match NewDeviceListStrategies strategies with
       | Some err => Some (Errorf_v "invalid --device-list-strategy option: %v" err)
       | None =>
           if negb (id =? "uuid")%string && negb (id =? "index")%string
           then Some (Errorf_s "invalid --device-id-strategy option: %v" id)
           else None
       end, w).
Proof.
  intros HP HL HI. unfold validateFlags. run. rewrite HP. simpl. rewrite HL. simpl.
  destruct (NewDeviceListStrategies strategies); [reflexivity|].
  rewrite HI. simpl.
  change spec.DeviceIDStrategyUUID with "uuid"%string.
  change spec.DeviceIDStrategyIndex with "index"%string.
  destruct (negb (id =? "uuid")%string && negb (id =? "index")%string); reflexivity.
Qed.

Lemma loadConfig_run (c : cli_Context) (flags : list cli_Flag) (w : world) :
  loadConfig c flags w =
  match NewConfig c flags (ext w) with
  | (inr err, x) =>
      (Val (inr (Errorf_v "unable to finalize config: %v" err)),
       {| ext := x; trace := trace w |})
  | (inl config, x) =>
      match validateFlags config {| ext := x; trace := trace w |} with
      | (Val (Some err), w') => (Val (inr (Errorf_v "unable to validate flags: %v" err)), w')
      | (Val None, w') => (Val (inl (spec.set_GFD config None)), w')
      | (Panic msg, w') => (Panic msg, w')
      end
  end.
Proof.
  unfold loadConfig. run.
  destruct (NewConfig c flags (ext w)) as [[config|err] x]; [|reflexivity].
  destruct (validateFlags config {| ext := x; trace := trace w |}) as [[[err|]|msg] w'];
    reflexivity.
Qed.

(** C10. When [loadConfig] returns without error, the configuration it
    returns has [Flags.GFD] nil, and is otherwise the configuration that
    [NewConfig] produced and [validateFlags] accepted: every other field is
    as [NewConfig] left it. *)
Theorem loadConfig_clears_GFD (c : cli_Context) (flags : list cli_Flag)
    (w w' : world) (config : spec.Config) :
  loadConfig c flags w = (Val (inl config), w') ->
  spec.GFD (spec.Flags config) = None /\
  exists config0,
    NewConfig c flags (ext w) = (inl config0, ext w') /\
    validateFlags config0 w' = (Val None, w') /\
    trace w' = trace w /\
    config = spec.set_GFD config0 None /\
    spec.Version config = spec.Version config0 /\
    spec.MigStrategy (spec.Flags config) = spec.MigStrategy (spec.Flags config0) /\
    spec.FailOnInitError (spec.Flags config) = spec.FailOnInitError (spec.Flags config0) /\
    spec.NvidiaDriverRoot (spec.Flags config) = spec.NvidiaDriverRoot (spec.Flags config0) /\
    spec.GDSEnabled (spec.Flags config) = spec.GDSEnabled (spec.Flags config0) /\
    spec.MOFEDEnabled (spec.Flags config) = spec.MOFEDEnabled (spec.Flags config0) /\
    spec.Plugin (spec.Flags config) = spec.Plugin (spec.Flags config0) /\
    spec.ConfigResources config = spec.ConfigResources config0 /\
    spec.ConfigSharing config = spec.ConfigSharing config0.
Proof.
  rewrite loadConfig_run.
  destruct (NewConfig c flags (ext w)) as [[config0|err] x] eqn:HN; [|discriminate].
  pose proof (validateFlags_world config0 {| ext := x; trace := trace w |}) as Hw.
  destruct (validateFlags config0 {| ext := x; trace := trace w |}) as [[[err|]|msg] w1] eqn:HV;
    try discriminate.
  simpl in Hw. intros H. injection H as Hc Hw'. subst w1 w' config.
  split; [reflexivity|].
  exists config0. simpl. rewrite HV. repeat split; reflexivity.
Qed.


(** C7. On a configuration that [NewConfig] has produced, [loadConfig]
    fails with an error that names the invalid option whenever the
    device-list strategies are not all accepted by
    [spec.NewDeviceListStrategies], and whenever the device-ID strategy is
    neither [uuid] nor [index]; when the device-list strategies are accepted
    and the device-ID strategy is [uuid] or [index], [validateFlags] returns
    nil and [loadConfig] returns the configuration. *)
Theorem loadConfig_validates_strategies (c : cli_Context) (flags : list cli_Flag)
    (w : world) (config : spec.Config) (x : W)
    (plugin : spec.PluginCommandLineFlags) (strategies : list string) (id : string) :
  NewConfig c flags (ext w) = (inl config, x) ->
  spec.Plugin (spec.Flags config) = Some plugin ->
  spec.DeviceListStrategy plugin = Some strategies ->
  spec.DeviceIDStrategy plugin = Some id ->
  let w1 := {| ext := x; trace := trace w |} in
  (forall err,
     NewDeviceListStrategies strategies = Some err ->
     validateFlags config w1 =
       (Val (Some (Errorf_v "invalid --device-list-strategy option: %v" err)), w1) /\
     loadConfig c flags w =
       (Val (inr (Errorf_v "unable to validate flags: %v"
                    (Errorf_v "invalid --device-list-strategy option: %v" err))), w1)) /\
  (NewDeviceListStrategies strategies = None ->
   id <> "uuid"%string -> id <> "index"%string ->
   validateFlags config w1 =
     (Val (Some (Errorf_s "invalid --device-id-strategy option: %v" id)), w1) /\
   loadConfig c flags w =
     (Val (inr (Errorf_v "unable to validate flags: %v"
                  (Errorf_s "invalid --device-id-strategy option: %v" id))), w1)) /\
  (id <> "uuid"%string -> id <> "index"%string ->
   exists err,
     validateFlags config w1 = (Val (Some err), w1) /\
     loadConfig c flags w =
       (Val (inr (Errorf_v "unable to validate flags: %v" err)), w1)) /\
  (NewDeviceListStrategies strategies = None ->
   id = "uuid"%string \/ id = "index"%string ->
   validateFlags config w1 = (Val None, w1) /\
   loadConfig c flags w = (Val (inl (spec.set_GFD config None)), w1)).
Proof.
  intros HN HP HL HI w1.
  assert (Hbad : id <> "uuid"%string -> id <> "index"%string ->
                 negb (id =? "uuid")%string && negb (id =? "index")%string = true).
  { intros H1 H2.
    destruct (String.eqb_spec id "uuid"); [contradiction|].
    destruct (String.eqb_spec id "index"); [contradiction|]. reflexivity. }
  assert (Hgood : id = "uuid"%string \/ id = "index"%string ->
                  negb (id =? "uuid")%string && negb (id =? "index")%string = false).
  { intros [H|H]; subst id; reflexivity. }
  rewrite loadConfig_run, HN. fold w1.
  rewrite (validateFlags_run config w1 HP HL HI).
  repeat split.
  - rewrite H. reflexivity.
  - rewrite H. reflexivity.
  - rewrite H, (Hbad H0 H1). reflexivity.
  - rewrite H, (Hbad H0 H1). reflexivity.
  - intros H1 H2. destruct (NewDeviceListStrategies strategies) as [err|].
    + eexists. split; reflexivity.
    + rewrite (Hbad H1 H2). eexists. split; reflexivity.
  - rewrite H, (Hgood H0). reflexivity.
  - rewrite H, (Hgood H0). reflexivity.
Qed.


(** ** disableResourceRenamingInConfig *)

Lemma resourceBody_flags (rbd : bool) (r : spec.ReplicatedResource) (a b : bool) :
  snd (resourceBody rbd r (a, b)) =
  (a || renameCustomised rbd r, b || devicesCustomised r).
Proof.
  unfold resourceBody, renameCustomised, devicesCustomised, defaultRename.
  destruct rbd; simpl;
    [destruct (spec.Rename r =? DefaultSharedRename (spec.Name r))%string
    |destruct (spec.Rename r =? "")%string];
    destruct (spec.All (spec.Devices r)); simpl;
    rewrite ?orb_true_r, ?orb_false_r; reflexivity.
Qed.

Lemma resourceBody_normalised (rbd : bool) (r : spec.ReplicatedResource) (st : bool * bool) :
  normalised rbd r (fst (resourceBody rbd r st)).
Proof.
  destruct st as [a b].
  unfold resourceBody, normalised, defaultRename.
  destruct rbd; simpl;
    [destruct (String.eqb_spec (spec.Rename r) (DefaultSharedRename (spec.Name r)))
    |destruct (String.eqb_spec (spec.Rename r) "")];
    destruct (spec.All (spec.Devices r)) eqn:HA; simpl;
    repeat split; try reflexivity; try assumption; try discriminate.
Qed.

Lemma resourceBody_fixed (rbd : bool) (r : spec.ReplicatedResource) (st : bool * bool) :
  renameCustomised rbd r = false ->
  devicesCustomised r = false ->
  resourceBody rbd r st = (r, st).
Proof.
  destruct st as [a b].
  unfold resourceBody, renameCustomised, devicesCustomised, defaultRename.
  destruct rbd; simpl;
    [destruct (spec.Rename r =? DefaultSharedRename (spec.Name r))%string
    |destruct (spec.Rename r =? "")%string];
    destruct (spec.All (spec.Devices r)); simpl; intros H1 H2;
    try discriminate; reflexivity.
Qed.

Lemma normalised_fixed (rbd : bool) (r r' : spec.ReplicatedResource) :
  normalised rbd r r' ->
  renameCustomised rbd r' = false /\ devicesCustomised r' = false.
Proof.
  intros (HN & _ & HR & HA & _).
  unfold renameCustomised, devicesCustomised, defaultRename in *.
  rewrite HA, HR, HN. rewrite String.eqb_refl. split; reflexivity.
Qed.

Lemma resourcesLoop_run (rbd : bool) (rs : list spec.ReplicatedResource) :
  forall a b,
    Forall2 (normalised rbd) rs (fst (resourcesLoop rbd rs (a, b))) /\
    snd (resourcesLoop rbd rs (a, b)) =
      (a || existsb (renameCustomised rbd) rs, b || existsb devicesCustomised rs).
Proof.
  induction rs as [|r rs IH]; intros a b; cbn [resourcesLoop existsb].
  - simpl. rewrite !orb_false_r. split; [constructor | reflexivity].
  - pose proof (resourceBody_flags rbd r a b) as HF.
    pose proof (resourceBody_normalised rbd r (a, b)) as HN.
    destruct (resourceBody rbd r (a, b)) as [e st1]. simpl in HF, HN. subst st1.
    specialize (IH (a || renameCustomised rbd r) (b || devicesCustomised r)).
    destruct (resourcesLoop rbd rs (a || renameCustomised rbd r, b || devicesCustomised r))
      as [rest st2].
    simpl in *. destruct IH as [IH1 IH2]. subst st2.
    rewrite !orb_assoc. split; [constructor; assumption | reflexivity].
Qed.

Lemma resourcesLoop_fixed (rbd : bool) (rs : list spec.ReplicatedResource) (st : bool * bool) :
  Forall (fun r => renameCustomised rbd r = false /\ devicesCustomised r = false) rs ->
  resourcesLoop rbd rs st = (rs, st).
Proof.
  induction 1 as [|r rs [H1 H2] _ IH]; cbn [resourcesLoop]; [reflexivity|].
  rewrite resourceBody_fixed, IH by assumption. reflexivity.
Qed.

Lemma Forall2_normalised_fixed (rbd : bool) (rs rs' : list spec.ReplicatedResource) :
  Forall2 (normalised rbd) rs rs' ->
  Forall (fun r => renameCustomised rbd r = false /\ devicesCustomised r = false) rs'.
Proof.
  induction 1; constructor; eauto using normalised_fixed.
Qed.

(** What [disableResourceRenamingInConfig] returns and logs. *)
Lemma disableResourceRenamingInConfig_run (config : spec.Config) (w : world) :
  let ts := spec.SharingTimeSlicing (spec.ConfigSharing config) in
  let cleared := spec.set_MIGs (spec.set_GPUs config None) None in
  disableResourceRenamingInConfig config w =
  (Val match spec.TSResources ts with
       | None => cleared
       | Some rs =>
           spec.set_TSResources cleared
             (Some (fst (resourcesLoop (spec.RenameByDefault ts) rs (false, false))))
       end,
   {| ext := ext w;
      trace := trace w ++ resourcesNotice config ++ renameWarning config
                       ++ devicesWarning config |}).
Proof.
  intros ts cleared.
  unfold disableResourceRenamingInConfig, resourcesNotice, renameWarning, devicesWarning.
  fold ts. simpl spec.TSResources. simpl spec.RenameByDefault. fold ts.
  destruct (spec.TSResources ts) as [rs|] eqn:HT.
  - pose proof (resourcesLoop_run (spec.RenameByDefault ts) rs false false) as [_ HF].
    destruct (resourcesLoop (spec.RenameByDefault ts) rs (false, false)) as [rs' [a b]].
    simpl in HF. injection HF as Ha Hb. subst a b. simpl elems.
    destruct ((len (spec.GPUs (spec.ConfigResources config)) >? 0)
              || (len (spec.MIGs (spec.ConfigResources config)) >? 0));
      destruct (existsb (renameCustomised (spec.RenameByDefault ts)) rs);
      destruct (existsb devicesCustomised rs);
      run; rewrite <- ?app_assoc, ?app_nil_r, ?world_eta; reflexivity.
  - simpl elems. simpl existsb.
    destruct ((len (spec.GPUs (spec.ConfigResources config)) >? 0)
              || (len (spec.MIGs (spec.ConfigResources config)) >? 0));
      run; rewrite <- ?app_assoc, ?app_nil_r, ?world_eta; reflexivity.
Qed.


Lemma existsb_fixed (rbd : bool) (rs : list spec.ReplicatedResource) :
  Forall (fun r => renameCustomised rbd r = false /\ devicesCustomised r = false) rs ->
  existsb (renameCustomised rbd) rs = false /\ existsb devicesCustomised rs = false.
Proof.
  induction 1 as [|r rs [H1 H2] _ [IH1 IH2]]; simpl; [split; reflexivity|].
  rewrite H1, H2, IH1, IH2. split; reflexivity.
Qed.

(** C5. For every configuration, [disableResourceRenamingInConfig] returns
    (it cannot fail) a configuration in which every entry of
    [Sharing.TimeSlicing.Resources] has [Devices.All] set and has the rename
    that the policy gives: empty when [RenameByDefault] is off, the default
    shared rename of the entry's name when it is on.  An entry that came
    without [Devices.All] has [Devices.Count] 0 and [Devices.List] nil; an
    entry that came with [Devices.All] keeps its [Devices.Count] and
    [Devices.List].  The log gets one warning when some rename was
    corrected and one when some device selection was. *)
Theorem disableResourceRenamingInConfig_normalises (config : spec.Config) (w : world) :
  let ts := spec.SharingTimeSlicing (spec.ConfigSharing config) in
  exists config',
    let ts' := spec.SharingTimeSlicing (spec.ConfigSharing config') in
    disableResourceRenamingInConfig config w =
      (Val config',
       {| ext := ext w;
          trace := trace w ++ resourcesNotice config ++ renameWarning config
                           ++ devicesWarning config |}) /\
    spec.RenameByDefault ts' = spec.RenameByDefault ts /\
    (spec.TSResources ts' = None <-> spec.TSResources ts = None) /\
    Forall2 (normalised (spec.RenameByDefault ts))
            (elems (spec.TSResources ts)) (elems (spec.TSResources ts')) /\
    (renameWarning config <> [] <->
     Exists (fun r => spec.Rename r <> defaultRename (spec.RenameByDefault ts) r)
            (elems (spec.TSResources ts))) /\
    (devicesWarning config <> [] <->
     Exists (fun r => spec.All (spec.Devices r) = false) (elems (spec.TSResources ts))).
Proof.
  intros ts. eexists. cbv zeta.
  split; [apply disableResourceRenamingInConfig_run|].
  fold ts. split; [|split; [|split; [|split]]].
  - destruct (spec.TSResources ts); reflexivity.
  - destruct (spec.TSResources ts) eqn:HT; simpl; fold ts; rewrite ?HT;
      split; intros H; congruence.
  - destruct (spec.TSResources ts) as [rs|] eqn:HT; simpl; fold ts; rewrite ?HT;
      [|constructor].
    apply resourcesLoop_run.
  - unfold renameWarning. fold ts. rewrite Exists_exists.
    destruct (existsb (renameCustomised (spec.RenameByDefault ts)) (elems (spec.TSResources ts)))
      eqn:HE.
    + split; [intros _ | discriminate].
      apply existsb_exists in HE. destruct HE as (r & Hin & Hr). exists r. split; [assumption|].
      unfold renameCustomised in Hr. apply negb_true_iff in Hr.
      apply String.eqb_neq. assumption.
    + split; [congruence|]. intros (r & Hin & Hr). exfalso.
      assert (existsb (renameCustomised (spec.RenameByDefault ts))
                      (elems (spec.TSResources ts)) = true); [|congruence].
      apply existsb_exists. exists r. split; [assumption|].
      unfold renameCustomised. apply negb_true_iff. apply String.eqb_neq. assumption.
  - unfold devicesWarning. fold ts. rewrite Exists_exists.
    destruct (existsb devicesCustomised (elems (spec.TSResources ts))) eqn:HE.
    + split; [intros _ | discriminate].
      apply existsb_exists in HE. destruct HE as (r & Hin & Hr). exists r. split; [assumption|].
      unfold devicesCustomised in Hr. apply negb_true_iff in Hr. assumption.
    + split; [congruence|]. intros (r & Hin & Hr). exfalso.
      assert (existsb devicesCustomised (elems (spec.TSResources ts)) = true); [|congruence].
      apply existsb_exists. exists r. split; [assumption|].
      unfold devicesCustomised. rewrite Hr. reflexivity.
Qed.

(** C6. Running [disableResourceRenamingInConfig] on its own result returns
    that result again and logs nothing: on the second run neither
    [setsNonDefaultRename] nor [setsDevices] is set, and the loop changes no
    entry. *)
Theorem disableResourceRenamingInConfig_idempotent (config : spec.Config) (w : world) :
  exists config1 w1,
    disableResourceRenamingInConfig config w = (Val config1, w1) /\
    disableResourceRenamingInConfig config1 w1 = (Val config1, w1) /\
    resourcesNotice config1 = [] /\
    renameWarning config1 = [] /\
    devicesWarning config1 = [] /\
    forall rs1,
      spec.TSResources (spec.SharingTimeSlicing (spec.ConfigSharing config1)) = Some rs1 ->
      resourcesLoop
        (spec.RenameByDefault (spec.SharingTimeSlicing (spec.ConfigSharing config1)))
        rs1 (false, false) = (rs1, (false, false)).
Proof.
  do 2 eexists. split; [apply disableResourceRenamingInConfig_run|].
  set (ts := spec.SharingTimeSlicing (spec.ConfigSharing config)).
  rewrite disableResourceRenamingInConfig_run.
  destruct (spec.TSResources ts) as [rs|] eqn:HT.
  - pose proof (resourcesLoop_run (spec.RenameByDefault ts) rs false false) as [HN _].
    apply Forall2_normalised_fixed in HN.
    set (rs' := fst (resourcesLoop (spec.RenameByDefault ts) rs (false, false))) in *.
    pose proof (@existsb_fixed _ _ HN) as [HE1 HE2].
    pose proof (@resourcesLoop_fixed _ _ (false, false) HN) as HL.
    unfold resourcesNotice, renameWarning, devicesWarning. simpl.
    fold ts. rewrite HE1, HE2, HL. simpl. rewrite app_nil_r.
    repeat split. intros rs1 H. injection H as H. subst rs1. assumption.
  - unfold resourcesNotice, renameWarning, devicesWarning. simpl.
    fold ts. rewrite HT. simpl. rewrite app_nil_r.
    repeat split. intros rs1 H. discriminate.
Qed.


(** ** Every step only adds to the trace *)

Lemma grows_ret {A : Type} (a : A) : grows (ret a).
Proof. intros w. exists []. simpl. rewrite app_nil_r. reflexivity. Qed.

Lemma grows_panic {A : Type} (msg : string) : grows (@panic _ A msg).
Proof. intros w. exists []. simpl. rewrite app_nil_r. reflexivity. Qed.

Lemma grows_emit (o : obs) : grows (emit o).
Proof. intros w. exists [o]. reflexivity. Qed.

Lemma grows_klog (sev : severity) (format : string) (args : list logarg) :
  grows (klog sev format args).
Proof. apply grows_emit. Qed.

Lemma grows_call {A : Type} (f : W -> A * W) : grows (call f).
Proof.
  intros w. exists []. unfold call. destruct (f (ext w)). simpl.
  rewrite app_nil_r. reflexivity.
Qed.

Lemma grows_bind {A B : Type} (m : M A) (k : A -> M B) :
  grows m -> (forall a, grows (k a)) -> grows (bind m k).
Proof.
  intros Hm Hk w. unfold bind. destruct (Hm w) as [tr1 H1].
  destruct (m w) as [[a|msg] w1]; simpl in H1.
  - destruct (Hk a w1) as [tr2 H2]. exists (tr1 ++ tr2).
    rewrite H2, H1, app_assoc. reflexivity.
  - exists tr1. assumption.
Qed.

Lemma grows_deref {A : Type} (p : option A) : grows (deref p).
Proof. destruct p; [apply grows_ret | apply grows_panic]. Qed.

Ltac grows_step :=
  first
    [ apply grows_ret | apply grows_panic | apply grows_klog | apply grows_emit
    | apply grows_call | apply grows_deref
    | apply grows_bind; [|intros ?]
    | match goal with
      | |- grows (match ?x with _ => _ end) => destruct x
      | |- grows (if ?x then _ else _) => destruct x
      end ].

Lemma grows_validateFlags (config : spec.Config) : grows (validateFlags config).
Proof. unfold validateFlags. repeat grows_step. Qed.

Lemma grows_loadConfig (c : cli_Context) (flags : list cli_Flag) :
  grows (loadConfig c flags).
Proof.
  unfold loadConfig. repeat (apply grows_validateFlags || grows_step).
Qed.

Lemma grows_disableResourceRenamingInConfig (config : spec.Config) :
  grows (disableResourceRenamingInConfig config).
Proof.
  intros w. rewrite disableResourceRenamingInConfig_run. simpl. eauto.
Qed.

Lemma grows_stopPlugins (ps : list Plugin) : grows (stopPlugins ps).
Proof. intros w. rewrite stopPlugins_run. simpl. eauto. Qed.

Lemma grows_startLoop (ps : list Plugin) : forall started, grows (startLoop ps started).
Proof.
  induction ps as [|p ps IH]; intros started; simpl.
  - apply grows_ret.
  - unfold p_Start. repeat (apply IH || grows_step).
Qed.

Lemma grows_startPlugins (c : cli_Context) (flags : list cli_Flag) (b : bool) :
  grows (startPlugins c flags b).
Proof.
  unfold startPlugins.
  repeat (apply grows_loadConfig || apply grows_disableResourceRenamingInConfig
          || apply grows_startLoop || grows_step).
Qed.


(** ** startPlugins *)

Ltac case_run :=
  repeat match goal with
         | |- context [match ?x with _ => _ end] => destruct x; simpl; try reflexivity
         end.

Lemma startPlugins_factor (c : cli_Context) (flags : list cli_Flag) (b : bool) (w : world) :
  startPlugins c flags b w =
  match constructPlugins c flags w with
  | (Val (inl ps), w1) => startConstructed ps w1
  | (Val (inr err), w1) => (Val ([], false, Some err), w1)
  | (Panic msg, w1) => (Panic msg, w1)
  end.
Proof.
  unfold startPlugins, constructPlugins, startConstructed, bind.
  case_run.
Qed.

Lemma hasDevices_false (p : Plugin) :
  hasDevices p = false <-> Devices p = [].
Proof.
  unfold hasDevices. destruct (Devices p); simpl; split; intros H;
    try reflexivity; discriminate.
Qed.

Lemma startLoop_skips (ps : list Plugin) (started : Z) (w : world) :
  Forall (fun p => Devices p = []) ps ->
  startLoop ps started w = (Val (Some started), w).
Proof.
  induction 1 as [|p ps Hp _ IH]; simpl; [reflexivity|].
  rewrite Hp. simpl. assumption.
Qed.

Lemma startLoop_ok (ps : list Plugin) (x x' : W) :
  startsOK ps x x' ->
  forall started tr,
  exists n,
    startLoop ps started {| ext := x; trace := tr |} =
    (Val (Some n), {| ext := x'; trace := tr ++ map ObsStart (filter hasDevices ps) |}).
Proof.
  induction 1 as [x | p ps x x' Hp _ IH | p ps x x1 x' Hp HS _ IH]; intros started tr.
  - exists started. simpl. rewrite app_nil_r. reflexivity.
  - destruct (IH started tr) as [n Hn]. exists n.
    cbn [startLoop filter]. rewrite Hp. unfold hasDevices in Hp.
    apply negb_false_iff in Hp. rewrite Hp. assumption.
  - destruct (IH (int_wrap (started + 1)) (tr ++ [ObsStart p])) as [n Hn]. exists n.
    cbn [startLoop filter]. rewrite Hp. unfold hasDevices in Hp.
    apply negb_true_iff in Hp. rewrite Hp.
    unfold p_Start. run. rewrite HS. rewrite Hn.
    rewrite <- app_assoc. reflexivity.
Qed.

(** The three lines that [startPlugins] logs when a [Start] fails. *)
Lemma startLoop_first_failure (pre post : list Plugin) (p : Plugin) (x x1 x' : W)
    (e : error) :
  startsOK pre x x1 ->
  hasDevices p = true ->
  Start p x1 = (Some e, x') ->
  forall started tr,
  exists logs,
    startLoop (pre ++ p :: post) started {| ext := x; trace := tr |} =
    (Val None,
     {| ext := x';
        trace := tr ++ map ObsStart (filter hasDevices pre) ++ ObsStart p :: logs |}) /\
    startCalls logs = [] /\ stopCalls logs = [].
Proof.
  induction 1 as [x | q ps x x1 Hq _ IH | q ps x x0 x1 Hq HS _ IH];
    intros Hp HF started tr.
  - eexists. cbn [app startLoop filter map]. unfold hasDevices in Hp.
    apply negb_true_iff in Hp. rewrite Hp.
    unfold p_Start. run. rewrite HF. simpl.
    split; [|split]; [| |].
    + rewrite <- !app_assoc. simpl. reflexivity.
    + reflexivity.
    + reflexivity.
  - destruct (IH Hp HF started tr) as (logs & Hrun & H1 & H2). exists logs.
    split; [|split; assumption].
    cbn [app startLoop filter]. rewrite Hq. unfold hasDevices in Hq.
    apply negb_false_iff in Hq. rewrite Hq. assumption.
  - destruct (IH Hp HF (int_wrap (started + 1)) (tr ++ [ObsStart q]))
      as (logs & Hrun & H1 & H2).
    exists logs. split; [|split; assumption].
    cbn [app startLoop filter map]. rewrite Hq. unfold hasDevices in Hq.
    apply negb_true_iff in Hq. rewrite Hq.
    unfold p_Start. run. rewrite HS. rewrite Hrun.
    rewrite <- !app_assoc. reflexivity.
Qed.


(** ** The pass *)

Lemma restartPass_run (c : cli_Context) (flags : list cli_Flag) (v : vars) (w : world) :
  restartPass c flags v w =
  match stopPrevious v w with
  | (Val None, w1) => startPass c flags v w1
  | (Val (Some err), w1) =>
      (Val (Return (Some (Errorf_v "error stopping plugins from previous run: %v" err))), w1)
  | (Panic msg, w1) => (Panic msg, w1)
  end.
Proof.
  unfold restartPass, startPass, stopPrevious. unfold bind at 1.
  destruct (if restarting v then stopPlugins (plugins v) else ret None) as [[[err|]|msg] w1];
    reflexivity.
Qed.

Lemma startPass_run (c : cli_Context) (flags : list cli_Flag) (v : vars) (w : world) :
  startPass c flags v w =
  match startPlugins c flags (restarting v) (record w [ObsLog Info "Starting Plugins." []]) with
  | (Val (ps, true, None), w1) =>
      (Val (Next {| restarting := true;
                    restartTimeout := time_After (30 * time_Second);
                    plugins := ps |}),
       record w1 [retryNotice])
  | (Val (ps, false, None), w1) =>
      (Val (Next {| restarting := true;
                    restartTimeout := restartTimeout v;
                    plugins := ps |}), w1)
  | (Val (_, _, Some err), w1) =>
      (Val (Return (Some (Errorf_v "error starting plugins: %v" err))), w1)
  | (Panic msg, w1) => (Panic msg, w1)
  end.
Proof.
  unfold startPass. unfold bind at 1. unfold klog, emit. unfold bind at 1.
  change {| ext := ext w; trace := trace w ++ [ObsLog Info "Starting Plugins." []] |}
    with (record w [ObsLog Info "Starting Plugins." []]).
  destruct (startPlugins c flags (restarting v)
              (record w [ObsLog Info "Starting Plugins." []]))
    as [[[[ps [|]] [err|]]|msg] w1]; reflexivity.
Qed.

Lemma stopPrevious_run (v : vars) (w : world) :
  stopPrevious v w =
  if restarting v
  then (Val (NewAggregate (fst (stopResults (plugins v) (ext w)))),
        {| ext := snd (stopResults (plugins v) (ext w));
           trace := trace w ++ ObsLog Info "Stopping plugins." [] :: map ObsStop (plugins v) |})
  else (Val None, w).
Proof.
  unfold stopPrevious. destruct (restarting v); [apply stopPlugins_run | reflexivity].
Qed.

(** C1. On a pass with [restarting] set, [start] first calls [Stop] on
    every plugin of the previous pass and aggregates the results.  When the
    aggregate is nil the pass goes on with loading the configuration and
    building and starting the new plugins; when it is not, [start] returns
    the error "error stopping plugins from previous run" at once, and
    nothing of the new pass is run. *)
Theorem restart_stops_previous_plugins_first (c : cli_Context) (flags : list cli_Flag)
    (v : vars) (w : world) :
  restarting v = true ->
  exists w1,
    stopPlugins (plugins v) w =
      (Val (NewAggregate (fst (stopResults (plugins v) (ext w)))), w1) /\
    trace w1 = trace w ++ ObsLog Info "Stopping plugins." [] :: map ObsStop (plugins v) /\
    stopCalls (trace w1) = stopCalls (trace w) ++ plugins v /\
    (NewAggregate (fst (stopResults (plugins v) (ext w))) = None ->
     restartPass c flags v w = startPass c flags v w1) /\
    (forall err,
       NewAggregate (fst (stopResults (plugins v) (ext w))) = Some err ->
       restartPass c flags v w =
         (Val (Return (Some (Errorf_v "error stopping plugins from previous run: %v" err))),
          w1)).
Proof.
  intros Hr. eexists.
  split; [apply stopPlugins_run|]. simpl.
  pose proof (stopPlugins_run (plugins v) w) as Hrun.
  repeat split.
  - rewrite stopCalls_app. simpl. rewrite stopCalls_stops. reflexivity.
  - intros Hnil. rewrite restartPass_run. unfold stopPrevious. rewrite Hr, Hrun, Hnil.
    reflexivity.
  - intros err Herr. rewrite restartPass_run. unfold stopPrevious. rewrite Hr, Hrun, Herr.
    reflexivity.
Qed.


(** C3. In a pass whose constructed plugin list is [pre ++ p :: post],
    where the plugins of [pre] that have devices all start and [Start]
    fails on [p]: [Start] is called on the plugins of [pre] that have
    devices and on [p], and on no plugin of [post]; [startPlugins] returns
    the whole constructed list, the retry flag set, and a nil error; the
    pass ends with [restartTimeout] set to [time.After(30 * time.Second)]
    and with the whole constructed list in [plugins], so that the stop step
    of the next pass calls [Stop] on every plugin of the list. *)
Theorem first_start_failure_degrades_pass (c : cli_Context) (flags : list cli_Flag)
    (v : vars) (w w1 w2 : world) (pre post : list Plugin) (p : Plugin)
    (x x' : W) (e : error) :
  stopPrevious v w = (Val None, w1) ->
  constructPlugins c flags (record w1 [ObsLog Info "Starting Plugins." []]) =
    (Val (inl (pre ++ p :: post)), w2) ->
  startsOK pre (ext w2) x ->
  hasDevices p = true ->
  Start p x = (Some e, x') ->
  exists w3 v',
    startPlugins c flags (restarting v) (record w1 [ObsLog Info "Starting Plugins." []]) =
      (Val (pre ++ p :: post, true, None), w3) /\
    startCalls (trace w3) = startCalls (trace w2) ++ filter hasDevices pre ++ [p] /\
    stopCalls (trace w3) = stopCalls (trace w2) /\
    ext w3 = x' /\
    restartPass c flags v w = (Val (Next v'), record w3 [retryNotice]) /\
    v' = {| restarting := true;
            restartTimeout := afterChan (30 * 1000000000) false;
            plugins := pre ++ p :: post |} /\
    stopCalls (trace (snd (stopPrevious v' (record w3 [retryNotice])))) =
      stopCalls (trace w3) ++ pre ++ p :: post.
Proof.
  intros Hstop Hcons Hpre Hp Hfail.
  edestruct startLoop_first_failure with (post := post) (started := 0) (tr := trace w2)
    as (logs & Hloop & Hl1 & Hl2); [exact Hpre | exact Hp | exact Hfail |].
  rewrite world_eta in Hloop.
  assert (Hsp : startPlugins c flags (restarting v)
                  (record w1 [ObsLog Info "Starting Plugins." []]) =
                (Val (pre ++ p :: post, true, None),
                 {| ext := x';
                    trace := trace w2 ++ map ObsStart (filter hasDevices pre)
                                      ++ ObsStart p :: logs |})).
  { rewrite startPlugins_factor, Hcons. unfold startConstructed, bind.
    rewrite Hloop. reflexivity. }
  do 2 eexists. split; [exact Hsp|]. simpl.
  split; [|split; [|split; [|split; [|split]]]].
  - rewrite !startCalls_app. simpl. rewrite Hl1, startCalls_starts. reflexivity.
  - rewrite !stopCalls_app. simpl. rewrite Hl2, stopCalls_starts, !app_nil_r.
    reflexivity.
  - reflexivity.
  - rewrite restartPass_run, Hstop, startPass_run, Hsp. reflexivity.
  - reflexivity.
  - rewrite stopPrevious_run. simpl.
    rewrite 2 stopCalls_app. simpl.
    rewrite (stopCalls_stops (pre ++ p :: post)), !app_nil_r.
    reflexivity.
Qed.

(** C8. In a pass whose constructed plugins all report no device,
    [startPlugins] calls [Start] on none of them and returns the list, the
    retry flag unset and a nil error; the pass leaves [restartTimeout] as it
    was, so that no retry timer is armed by it. *)
Theorem pass_without_devices_is_quiescent (c : cli_Context) (flags : list cli_Flag)
    (v : vars) (w w1 w2 : world) (ps : list Plugin) :
  stopPrevious v w = (Val None, w1) ->
  constructPlugins c flags (record w1 [ObsLog Info "Starting Plugins." []]) =
    (Val (inl ps), w2) ->
  Forall (fun p => Devices p = []) ps ->
  let w3 := record w2 [ObsLog Info "No devices found. Waiting indefinitely." []] in
  startPlugins c flags (restarting v) (record w1 [ObsLog Info "Starting Plugins." []]) =
    (Val (ps, false, None), w3) /\
  startCalls (trace w3) = startCalls (trace w2) /\
  restartPass c flags v w =
    (Val (Next {| restarting := true; restartTimeout := restartTimeout v; plugins := ps |}),
     w3).
Proof.
  intros Hstop Hcons Hnone w3.
  assert (Hsp : startPlugins c flags (restarting v)
                  (record w1 [ObsLog Info "Starting Plugins." []]) =
                (Val (ps, false, None), w3)).
  { rewrite startPlugins_factor, Hcons. unfold startConstructed, bind.
    rewrite startLoop_skips by assumption. reflexivity. }
  split; [exact Hsp|]. split.
  - unfold w3, record. simpl. rewrite startCalls_app. simpl. apply app_nil_r.
  - rewrite restartPass_run, Hstop, startPass_run, Hsp. reflexivity.
Qed.


(** ** The loop *)

Lemma forLoop_app (c : cli_Context) (flags : list cli_Flag) (pre post : list selected) :
  forall v w v' w',
    forLoop c flags pre v w = (Val (Waiting v'), w') ->
    forLoop c flags (pre ++ post) v w = forLoop c flags post v' w'.
Proof.
  induction pre as [|ev pre IH]; intros v w v' w' H.
  - simpl in H. unfold ret in H. injection H as Hv Hw. subst. reflexivity.
  - cbn [forLoop app] in *. unfold bind in *.
    destruct (selectCase v ev w) as [[[j v1]|msg] w1]; [|discriminate].
    destruct j.
    + apply IH. assumption.
    + destruct (restartPass c flags v1 w1) as [[[v2|err]|msg] w2]; try discriminate.
      apply IH. assumption.
    + destruct (exitPath v1 w1) as [[err|msg] w2]; discriminate.
    + discriminate.
Qed.

Lemma start_app (c : cli_Context) (flags : list cli_Flag) (pre post : list selected)
    (w w1 : world) (v : vars) :
  start c flags pre w = (Val (Waiting v), w1) ->
  start c flags (pre ++ post) w = deferClose (forLoop c flags post v) w1.
Proof.
  unfold start. unfold bind at 1 2 3 4. unfold bind at 5 6 7 8.
  set (w0 := snd (klog Info "Starting FS watcher." [] w)).
  change (klog Info "Starting FS watcher." [] w) with (Val tt, w0).
  cbv iota beta.
  destruct (call (fun x => (os_Getenv_NodeName x, x)) w0) as [[nodeName|msg] wa];
    [|discriminate].
  destruct (call (fun x => (tt, InitGlobalClient x)) wa) as [[[]|msg] wb]; [|discriminate].
  destruct (call newFSWatcher wb) as [[[err|]|msg] wc]; try discriminate.
  unfold deferClose.
  unfold bind at 1 2 3 4. unfold bind at 1 2 3 4.
  destruct (klog Info "Start working on node %s" [ArgString nodeName] wc)
    as [[[]|msg] wd]; [|discriminate].
  destruct (klog Info "Starting OS watcher." [] wd) as [[[]|msg] we]; [|discriminate].
  destruct (call (fun x => (tt, newOSWatcher x)) we) as [[[]|msg] wf]; [|discriminate].
  destruct (restartPass c flags
              {| restarting := false; restartTimeout := nilChan; plugins := [] |} wf)
    as [[[v0|err]|msg] wg]; try discriminate.
  destruct (forLoop c flags pre v0 wg) as [[o|msg] wh] eqn:HF; [|discriminate].
  destruct o as [err|v1|]; try discriminate.
  intros H. injection H as Hv Hw. subst v1 wh.
  rewrite (forLoop_app _ _ _ post _ _ HF). reflexivity.
Qed.

Lemma exitPath_run (v : vars) (w : world) :
  exitPath v w =
  (Val match NewAggregate (fst (stopResults (plugins v) (ext w))) with
       | Some err => Some (Errorf_v "error stopping plugins: %v" err)
       | None => None
       end,
   {| ext := snd (stopResults (plugins v) (ext w));
      trace := trace w ++ ObsLog Info "Stopping plugins." [] :: map ObsStop (plugins v) |}).
Proof.
  unfold exitPath, bind. rewrite stopPlugins_run.
  destruct (NewAggregate (fst (stopResults (plugins v) (ext w)))); reflexivity.
Qed.

(** C2. When [start] waits in its [select] with the plugins [plugins v]
    and receives SIGINT, SIGTERM or SIGQUIT, it calls [Stop] once on each of
    these plugins, in order, and starts nothing; the process then exits, with
    status 0 when every [Stop] returned nil and with status 1 when some
    [Stop] returned an error. *)
Theorem terminal_signal_stops_every_plugin (c : cli_Context) (flags : list cli_Flag)
    (pre rest : list selected) (s : signal) (v : vars) (w w1 : world) :
  s <> SIGHUP ->
  start c flags pre w = (Val (Waiting v), w1) ->
  exists status w2,
    main c flags (pre ++ FromSigs s :: rest) w = (Some status, w2) /\
    stopCalls (trace w2) = stopCalls (trace w1) ++ plugins v /\
    startCalls (trace w2) = startCalls (trace w1) /\
    status = match NewAggregate (fst (stopResults (plugins v) (ext w1))) with
             | None => 0
             | Some _ => 1
             end /\
    (status = 0 <->
     Forall (fun err => err = None) (fst (stopResults (plugins v) (ext w1)))).
Proof.
  intros Hs Hstart.
  unfold main. erewrite start_app by exact Hstart.
  unfold deferClose. cbn [forLoop]. unfold bind at 1.
  assert (Hsel : selectCase v (FromSigs s) w1 =
                 (Val (GotoExit, v),
                  record w1 [ObsLog Info
                               ("Received signal " ++ dquote ++ "%v" ++ dquote
                                ++ ", shutting down.")
                               [ArgString (signal_name s)]])).
  { destruct s; [contradiction| | |]; reflexivity. }
  rewrite Hsel. cbv iota beta. unfold bind at 1. rewrite exitPath_run.
  cbn [ext trace record plugins].
  pose proof (NewAggregate_nil_iff (fst (stopResults (plugins v) (ext w1)))) as Hagg.
  destruct (NewAggregate (fst (stopResults (plugins v) (ext w1)))) as [err|].
  - do 2 eexists. split; [reflexivity|]. simpl.
    repeat (progress (rewrite ?stopCalls_app, ?startCalls_app; simpl)).
    rewrite stopCalls_stops, startCalls_stops, ?app_nil_r.
    repeat split; try reflexivity.
    + discriminate.
    + intros H. apply Hagg in H. discriminate.
  - do 2 eexists. split; [reflexivity|]. simpl.
    repeat (progress (rewrite ?stopCalls_app, ?startCalls_app; simpl)).
    rewrite stopCalls_stops, startCalls_stops, ?app_nil_r.
    repeat split; try reflexivity.
    intros _. apply Hagg. reflexivity.
Qed.


(** ** The retry timer *)

Lemma restartPass_next (c : cli_Context) (flags : list cli_Flag) (v v' : vars)
    (w w' : world) :
  restartPass c flags v w = (Val (Next v'), w') ->
  exists wa ps b wb,
    stopPrevious v w = (Val None, wa) /\
    startPlugins c flags (restarting v) (record wa [ObsLog Info "Starting Plugins." []]) =
      (Val (ps, b, None), wb) /\
    v' = {| restarting := true;
            restartTimeout := if b then time_After (30 * time_Second) else restartTimeout v;
            plugins := ps |} /\
    w' = if b then record wb [retryNotice] else wb.
Proof.
  rewrite restartPass_run.
  destruct (stopPrevious v w) as [[[err|]|msg] wa]; try discriminate.
  rewrite startPass_run.
  destruct (startPlugins c flags (restarting v)
              (record wa [ObsLog Info "Starting Plugins." []]))
    as [[[[ps [|]] [err|]]|msg] wb] eqn:HS; try discriminate;
    intros H; injection H as Hv Hw; subst v' w';
    exists wa, ps; eexists; exists wb;
    (split; [reflexivity | split; [exact HS | split; reflexivity]]).
Qed.

Lemma grows_stopPrevious (v : vars) : grows (stopPrevious v).
Proof.
  unfold stopPrevious. destruct (restarting v); [apply grows_stopPlugins | apply grows_ret].
Qed.

Lemma armedIn_app (tr tr' : list obs) (ch : timeChan) :
  armedIn tr ch -> armedIn (tr ++ tr') ch.
Proof.
  intros [H | (r & H1 & H2)]; [left; assumption|].
  right. exists r. split; [assumption|]. apply in_or_app. left. assumption.
Qed.

Lemma sinceStart_grow (t0 tr : list obs) (v : vars) (w w' : world) :
  sinceStart t0 v w ->
  trace w' = trace w ++ tr ->
  sinceStart t0 v w'.
Proof.
  intros (tr0 & H1 & H2) H. exists (tr0 ++ tr). split.
  - rewrite H, H1, app_assoc. reflexivity.
  - apply armedIn_app. assumption.
Qed.

Lemma restartPass_sinceStart (c : cli_Context) (flags : list cli_Flag) (t0 : list obs)
    (v v' : vars) (w w' : world) :
  sinceStart t0 v w ->
  restartPass c flags v w = (Val (Next v'), w') ->
  sinceStart t0 v' w'.
Proof.
  intros Hinv H. apply restartPass_next in H.
  destruct H as (wa & ps & b & wb & Hstop & Hstart & Hv & Hw).
  destruct (grows_stopPrevious v w) as [tr1 H1]. rewrite Hstop in H1. simpl in H1.
  destruct (grows_startPlugins c flags (restarting v)
              (record wa [ObsLog Info "Starting Plugins." []])) as [tr2 H2].
  rewrite Hstart in H2. simpl in H2.
  destruct Hinv as (tr0 & Ht & Harm).
  assert (Hwb : trace wb = t0 ++ (tr0 ++ tr1 ++ [ObsLog Info "Starting Plugins." []] ++ tr2)).
  { rewrite H2, H1, Ht, <- !app_assoc. reflexivity. }
  subst v' w'. destruct b.
  - exists ((tr0 ++ tr1 ++ [ObsLog Info "Starting Plugins." []] ++ tr2) ++ [retryNotice]).
    simpl. split.
    + rewrite Hwb, <- !app_assoc. reflexivity.
    + right. exists false. split; [reflexivity|].
      apply in_or_app. right. left. reflexivity.
  - exists (tr0 ++ tr1 ++ [ObsLog Info "Starting Plugins." []] ++ tr2). simpl.
    split; [assumption|]. apply armedIn_app. assumption.
Qed.

Lemma selectCase_sinceStart (t0 : list obs) (v v' : vars) (w w' : world)
    (ev : selected) (j : jump) :
  sinceStart t0 v w ->
  selectCase v ev w = (Val (j, v'), w') ->
  sinceStart t0 v' w'.
Proof.
  intros Hinv H. destruct ev as [|name op|err|s]; simpl in H.
  - destruct (restartTimeout v) as [|d [|]] eqn:Hch; unfold ret in H;
      injection H as Hj Hv Hw; subst j v' w'; try assumption.
    destruct Hinv as (tr & Ht & Harm). exists tr. split; [assumption|].
    simpl. rewrite Hch in Harm.
    destruct Harm as [Hn | (r & Hr & Hin)]; [discriminate|].
    injection Hr as Hd _. subst d. right. exists true. split; [reflexivity | assumption].
  - destruct ((name =? KubeletSocket)%string
              && (Z.land op fsnotify_Create =? fsnotify_Create));
      run; injection H as Hj Hv Hw; subst j v' w'.
    + eapply sinceStart_grow; [eassumption | reflexivity].
    + assumption.
  - run. injection H as Hj Hv Hw; subst j v' w'.
    eapply sinceStart_grow; [eassumption | reflexivity].
  - destruct s; run; injection H as Hj Hv Hw; subst j v' w';
      (eapply sinceStart_grow; [eassumption | reflexivity]).
Qed.

Lemma forLoop_sinceStart (c : cli_Context) (flags : list cli_Flag) (t0 : list obs)
    (schedule : list selected) :
  forall v w v' w',
    sinceStart t0 v w ->
    forLoop c flags schedule v w = (Val (Waiting v'), w') ->
    sinceStart t0 v' w'.
Proof.
  induction schedule as [|ev rest IH]; intros v w v' w' Hinv H.
  - simpl in H. unfold ret in H. injection H as Hv Hw. subst. assumption.
  - cbn [forLoop] in H. unfold bind in H.
    destruct (selectCase v ev w) as [[[j v1]|msg] w1] eqn:Hsel; [|discriminate].
    pose proof (selectCase_sinceStart _ Hinv Hsel) as Hinv1.
    destruct j.
    + eapply IH; eassumption.
    + destruct (restartPass c flags v1 w1) as [[[v2|err]|msg] w2] eqn:Hpass;
        try discriminate.
      eapply IH; [|eassumption].
      eapply restartPass_sinceStart; eassumption.
    + destruct (exitPath v1 w1) as [[err|msg] w2]; discriminate.
    + discriminate.
Qed.

Lemma start_sinceStart (c : cli_Context) (flags : list cli_Flag)
    (schedule : list selected) (w w1 : world) (v : vars) :
  start c flags schedule w = (Val (Waiting v), w1) ->
  sinceStart (trace w) v w1.
Proof.
  unfold start. unfold bind at 1 2 3 4.
  set (w0 := snd (klog Info "Starting FS watcher." [] w)).
  change (klog Info "Starting FS watcher." [] w) with (Val tt, w0).
  cbv iota beta.
  assert (H0 : trace w0 = trace w ++ [ObsLog Info "Starting FS watcher." []])
    by reflexivity.
  destruct (grows_call (fun x => (os_Getenv_NodeName x, x)) w0) as [tra Ha].
  destruct (call (fun x => (os_Getenv_NodeName x, x)) w0) as [[nodeName|msg] wa];
    [|discriminate].
  destruct (grows_call (fun x => (tt, InitGlobalClient x)) wa) as [trb Hb].
  destruct (call (fun x => (tt, InitGlobalClient x)) wa) as [[[]|msg] wb]; [|discriminate].
  destruct (grows_call newFSWatcher wb) as [trc Hc].
  destruct (call newFSWatcher wb) as [[[err|]|msg] wc]; try discriminate.
  unfold deferClose.
  unfold bind at 1 2 3 4.
  destruct (grows_klog Info "Start working on node %s" [ArgString nodeName] wc) as [trd Hd].
  destruct (klog Info "Start working on node %s" [ArgString nodeName] wc)
    as [[[]|msg] wd]; [|discriminate].
  destruct (grows_klog Info "Starting OS watcher." [] wd) as [tre He].
  destruct (klog Info "Starting OS watcher." [] wd) as [[[]|msg] we]; [|discriminate].
  destruct (grows_call (fun x => (tt, newOSWatcher x)) we) as [trf Hf].
  destruct (call (fun x => (tt, newOSWatcher x)) we) as [[[]|msg] wf]; [|discriminate].
  simpl in Ha, Hb, Hc, Hd, He, Hf.
  destruct (restartPass c flags
              {| restarting := false; restartTimeout := nilChan; plugins := [] |} wf)
    as [[[v0|err]|msg] wg] eqn:Hpass; try discriminate.
  destruct (forLoop c flags schedule v0 wg) as [[o|msg] wh] eqn:HF; [|discriminate].
  destruct o as [err|v1|]; try discriminate.
  intros H. injection H as Hv Hw. subst v1 wh.
  eapply forLoop_sinceStart; [|eassumption].
  eapply restartPass_sinceStart; [|eassumption].
  exists ([ObsLog Info "Starting FS watcher." []] ++ tra ++ trb ++ trc ++ trd ++ tre ++ trf).
  split.
  - rewrite Hf, He, Hd, Hc, Hb, Ha, ?H0, <- !app_assoc. reflexivity.
  - left. reflexivity.
Qed.


(** C4. In every state in which [start] waits, the case of
    [restartTimeout] is taken, and leads to a new pass, exactly when the
    channel still holds its value; that channel was then made by
    [time.After(30 * time.Second)] in a pass of this run that logged the
    retry notice, and taking the case spends it.  A pass that completes
    makes a new channel when [startPlugins] reports a failed start and
    otherwise leaves [restartTimeout] as it was: a channel that holds its
    value keeps it through a pass in which every plugin started.  There is
    one channel at a time, the last one made. *)
Theorem retry_timer_restarts_while_armed (c : cli_Context) (flags : list cli_Flag)
    (schedule : list selected) (w w1 : world) (v : vars) :
  start c flags schedule w = (Val (Waiting v), w1) ->
  (exists tr,
     trace w1 = trace w ++ tr /\
     ((restartTimeout v = afterChan (30 * time_Second) false /\
       In retryNotice tr /\
       selectCase v FromRestartTimeout w1 =
         (Val (GotoRestart, set_restartTimeout v (afterChan (30 * time_Second) true)), w1))
      \/
      ((restartTimeout v = nilChan \/ restartTimeout v = afterChan (30 * time_Second) true) /\
       selectCase v FromRestartTimeout w1 = (Val (NotReady, v), w1)))) /\
  (forall u wu u' wu',
     restartPass c flags u wu = (Val (Next u'), wu') ->
     exists wa ps b wb,
       stopPrevious u wu = (Val None, wa) /\
       startPlugins c flags (restarting u) (record wa [ObsLog Info "Starting Plugins." []]) =
         (Val (ps, b, None), wb) /\
       restartTimeout u' =
         (if b then afterChan (30 * time_Second) false else restartTimeout u)).
Proof.
  intros Hstart. split.
  - destruct (start_sinceStart _ _ _ _ Hstart) as (tr & Ht & Harm).
    exists tr. split; [assumption|].
    destruct Harm as [Hn | ([|] & Hr & Hin)].
    + right. split; [left; assumption|]. simpl. rewrite Hn. reflexivity.
    + right. split; [right; assumption|]. simpl. rewrite Hr. reflexivity.
    + left. split; [assumption|]. split; [assumption|]. simpl. rewrite Hr. reflexivity.
  - intros u wu u' wu' Hpass. apply restartPass_next in Hpass.
    destruct Hpass as (wa & ps & b & wb & Hs & Hp & Hu & _).
    exists wa, ps, b, wb. split; [assumption|]. split; [assumption|].
    subst u'. reflexivity.
Qed.


(** ** Runs that do not read the trace *)

Lemma runs_ret (P : obs -> Prop) {A : Type} (a : A) : runs P (ret a).
Proof.
  intros x. exists (Val a), x, []. split; [constructor|].
  intros t. unfold ret. rewrite app_nil_r. reflexivity.
Qed.

Lemma runs_panic (P : obs -> Prop) {A : Type} (msg : string) : runs P (@panic _ A msg).
Proof.
  intros x. exists (Panic msg), x, []. split; [constructor|].
  intros t. unfold panic. rewrite app_nil_r. reflexivity.
Qed.

Lemma runs_emit (P : obs -> Prop) (o : obs) : P o -> runs P (emit o).
Proof.
  intros Ho x. exists (Val tt), x, [o]. split; [repeat constructor; assumption|].
  intros t. reflexivity.
Qed.

Lemma runs_klog (P : obs -> Prop) (sev : severity) (format : string) (args : list logarg) :
  P (ObsLog sev format args) -> runs P (klog sev format args).
Proof. apply runs_emit. Qed.

Lemma runs_call (P : obs -> Prop) {A : Type} (f : W -> A * W) : runs P (call f).
Proof.
  intros x. exists (Val (fst (f x))), (snd (f x)), []. split; [constructor|].
  intros t. unfold call. simpl. destruct (f x). simpl. rewrite app_nil_r. reflexivity.
Qed.

Lemma runs_deref (P : obs -> Prop) {A : Type} (p : option A) : runs P (deref p).
Proof. destruct p; [apply runs_ret | apply runs_panic]. Qed.

Lemma runs_bind (P : obs -> Prop) {A B : Type} (m : M A) (k : A -> M B) :
  runs P m -> (forall a, runs P (k a)) -> runs P (bind m k).
Proof.
  intros Hm Hk x. destruct (Hm x) as (r & x1 & tr1 & HP1 & H1).
  destruct r as [a|msg].
  - destruct (Hk a x1) as (r2 & x2 & tr2 & HP2 & H2).
    exists r2, x2, (tr1 ++ tr2). split; [apply Forall_app; split; assumption|].
    intros t. unfold bind. rewrite H1, H2, app_assoc. reflexivity.
  - exists (Panic msg), x1, tr1. split; [assumption|].
    intros t. unfold bind. rewrite H1. reflexivity.
Qed.

Lemma runs_weaken (P Q : obs -> Prop) {A : Type} (m : M A) :
  (forall o, P o -> Q o) -> runs P m -> runs Q m.
Proof.
  intros HPQ Hm x. destruct (Hm x) as (r & x' & tr & HP & H).
  exists r, x', tr. split; [|assumption].
  eapply Forall_impl; [|eassumption]. assumption.
Qed.

Ltac runs_step :=
  first
    [ apply runs_ret | apply runs_panic | apply runs_klog; exact I
    | apply runs_emit; exact I
    | apply runs_call | apply runs_deref
    | apply runs_bind; [|intros ?]
    | match goal with
      | |- runs _ (match ?x with _ => _ end) => destruct x
      | |- runs _ (if ?x then _ else _) => destruct x
      end ].

Lemma runs_validateFlags (config : spec.Config) : runs isLog (validateFlags config).
Proof. unfold validateFlags. repeat runs_step. Qed.

Lemma runs_loadConfig (c : cli_Context) (flags : list cli_Flag) :
  runs isLog (loadConfig c flags).
Proof. unfold loadConfig. repeat (apply runs_validateFlags || runs_step). Qed.

Lemma runs_disableResourceRenamingInConfig (config : spec.Config) :
  runs isLog (disableResourceRenamingInConfig config).
Proof.
  intros x. do 3 eexists. split.
  2:{ intros t. rewrite disableResourceRenamingInConfig_run. simpl. reflexivity. }
  unfold resourcesNotice, renameWarning, devicesWarning.
  repeat (apply Forall_app; split);
    match goal with |- Forall _ (if ?b then _ else _) => destruct b end;
    repeat constructor.
Qed.

Lemma runs_constructPlugins (c : cli_Context) (flags : list cli_Flag) :
  runs isLog (constructPlugins c flags).
Proof.
  unfold constructPlugins.
  repeat (apply runs_loadConfig || apply runs_disableResourceRenamingInConfig || runs_step).
Qed.

Lemma runs_startLoop (ps : list Plugin) :
  forall started, runs startOrLog (startLoop ps started).
Proof.
  induction ps as [|p ps IH]; intros started; simpl.
  - apply runs_ret.
  - unfold p_Start. repeat (apply IH || runs_step).
Qed.

Lemma isLog_startOrLog (o : obs) : isLog o -> startOrLog o.
Proof. destruct o; simpl; auto. Qed.

Lemma isLog_stopOrLog (o : obs) : isLog o -> stopOrLog o.
Proof. destruct o; simpl; auto. Qed.

Lemma isLog_notClose (o : obs) : isLog o -> notClose o.
Proof. destruct o; simpl; auto. Qed.

Lemma startOrLog_notClose (o : obs) : startOrLog o -> notClose o.
Proof. destruct o; simpl; auto. Qed.

Lemma stopOrLog_notClose (o : obs) : stopOrLog o -> notClose o.
Proof. destruct o; simpl; auto. Qed.

Lemma runs_startPlugins (c : cli_Context) (flags : list cli_Flag) (b : bool) :
  runs startOrLog (startPlugins c flags b).
Proof.
  unfold startPlugins.
  repeat ((eapply runs_weaken; [exact isLog_startOrLog | apply runs_loadConfig])
          || (eapply runs_weaken;
              [exact isLog_startOrLog | apply runs_disableResourceRenamingInConfig])
          || apply runs_startLoop || runs_step).
Qed.

Lemma runs_startPass (c : cli_Context) (flags : list cli_Flag) (v : vars) :
  runs startOrLog (startPass c flags v).
Proof.
  unfold startPass. repeat (apply runs_startPlugins || runs_step).
Qed.

Lemma runs_stopPlugins (ps : list Plugin) : runs stopOrLog (stopPlugins ps).
Proof.
  intros x. do 3 eexists. split.
  2:{ intros t. rewrite stopPlugins_run. simpl. reflexivity. }
  constructor; [exact I|]. induction ps; simpl; constructor; [exact I | assumption].
Qed.

Lemma runs_stopPrevious (v : vars) : runs stopOrLog (stopPrevious v).
Proof.
  unfold stopPrevious. destruct (restarting v); [apply runs_stopPlugins | apply runs_ret].
Qed.

Lemma runs_exitPath (v : vars) : runs stopOrLog (exitPath v).
Proof. unfold exitPath. repeat (apply runs_stopPlugins || runs_step). Qed.

Lemma runs_restartPass (c : cli_Context) (flags : list cli_Flag) (v : vars) :
  runs notClose (restartPass c flags v).
Proof.
  unfold restartPass.
  apply runs_bind.
  - eapply runs_weaken; [exact stopOrLog_notClose | apply runs_stopPrevious].
  - intros [err|]; [apply runs_ret|].
    eapply runs_weaken; [exact startOrLog_notClose | apply runs_startPass].
Qed.

Lemma runs_selectCase (v : vars) (ev : selected) : runs isLog (selectCase v ev).
Proof.
  destruct ev as [|name op|err|s]; simpl.
  - destruct (restartTimeout v) as [|d [|]]; apply runs_ret.
  - repeat runs_step.
  - repeat runs_step.
  - destruct s; repeat runs_step.
Qed.

Lemma runs_forLoop (c : cli_Context) (flags : list cli_Flag) (schedule : list selected) :
  forall v, runs notClose (forLoop c flags schedule v).
Proof.
  induction schedule as [|ev rest IH]; intros v; cbn [forLoop].
  - apply runs_ret.
  - apply runs_bind;
      [eapply runs_weaken; [exact isLog_notClose | apply runs_selectCase]|].
    intros [j v1]. destruct j.
    + apply IH.
    + apply runs_bind; [apply runs_restartPass|].
      intros [v2|err]; [apply IH | apply runs_ret].
    + apply runs_bind;
        [eapply runs_weaken; [exact stopOrLog_notClose | apply runs_exitPath]|].
      intros err. apply runs_ret.
    + apply runs_ret.
Qed.


Lemma runs_at (P : obs -> Prop) {A : Type} (m : M A) (w : world) :
  runs P m ->
  exists r x' tr,
    Forall P tr /\ m w = (r, {| ext := x'; trace := trace w ++ tr |}).
Proof.
  intros Hm. destruct (Hm (ext w)) as (r & x' & tr & HP & H).
  exists r, x', tr. split; [assumption|]. rewrite <- (H (trace w)), world_eta. reflexivity.
Qed.

Lemma effects_app (a b : list obs) : effects (a ++ b) = effects a ++ effects b.
Proof.
  induction a as [|o a IH]; simpl; [reflexivity|].
  destruct o; simpl; rewrite IH; reflexivity.
Qed.

Lemma effects_logs (tr : list obs) : Forall isLog tr -> effects tr = [].
Proof.
  induction 1 as [|o tr Ho _ IH]; simpl; [reflexivity|].
  destruct o; simpl in *; (assumption || contradiction).
Qed.

Lemma startCalls_logs (tr : list obs) : Forall stopOrLog tr -> startCalls tr = [].
Proof.
  induction 1 as [|o tr Ho _ IH]; simpl; [reflexivity|].
  destruct o; simpl in *; (assumption || contradiction).
Qed.

Lemma stopCalls_logs (tr : list obs) : Forall startOrLog tr -> stopCalls tr = [].
Proof.
  induction 1 as [|o tr Ho _ IH]; simpl; [reflexivity|].
  destruct o; simpl in *; (assumption || contradiction).
Qed.

Lemma notClose_not_in (tr : list obs) : Forall notClose tr -> ~ In ObsWatcherClose tr.
Proof.
  intros H Hin. rewrite Forall_forall in H. exact (H _ Hin).
Qed.

Lemma Forall_isLog_weaken (tr : list obs) :
  Forall isLog tr -> Forall startOrLog tr /\ Forall stopOrLog tr /\ Forall notClose tr.
Proof.
  intros H. repeat split; (eapply Forall_impl; [|exact H]);
    [exact isLog_startOrLog | exact isLog_stopOrLog | exact isLog_notClose].
Qed.

(** Two runs of the same computation from worlds with the same outside
    world return the same, and add the same observations. *)
Lemma runs_sameEffects (P : obs -> Prop) {A : Type} (m : M A) (a b : world) :
  runs P m ->
  sameEffects a b ->
  fst (m a) = fst (m b) /\ sameEffects (snd (m a)) (snd (m b)).
Proof.
  intros Hm [Hx Ht]. destruct (Hm (ext a)) as (r & x' & tr & _ & H).
  rewrite <- (world_eta a), <- (world_eta b), <- Hx, !H. simpl.
  split; [reflexivity|]. split; [reflexivity|]. simpl.
  rewrite !effects_app, Ht. reflexivity.
Qed.

Lemma sameEffects_refl (a : world) : sameEffects a a.
Proof. split; reflexivity. Qed.

Lemma sameEffects_sym (a b : world) : sameEffects a b -> sameEffects b a.
Proof. intros [H1 H2]. split; symmetry; assumption. Qed.

Lemma sameEffects_trans (a b c : world) :
  sameEffects a b -> sameEffects b c -> sameEffects a c.
Proof. intros [H1 H2] [H3 H4]. split; congruence. Qed.

(** ** The whole of start *)

(** The world in which the first pass begins, when the watcher could be
    made and the outside world is then [x]. *)
Lemma start_run (c : cli_Context) (flags : list cli_Flag) (schedule : list selected)
    (w : world) :
  start c flags schedule w =
  match newFSWatcher (InitGlobalClient (ext w)) with
  | (Some err, x) =>
      (Val (Returned (Some (Errorf_v "failed to create FS watcher: %v" err))),
       {| ext := x; trace := trace w ++ [ObsLog Info "Starting FS watcher." []] |})
  | (None, x) =>
      deferClose
        (fun w0 =>
           match restartPass c flags vars0 w0 with
           | (Val (Next v), w1) => forLoop c flags schedule v w1
           | (Val (Return err), w1) => (Val (Returned err), w1)
           | (Panic msg, w1) => (Panic msg, w1)
           end)
        {| ext := newOSWatcher x;
           trace := trace w ++ [ObsLog Info "Starting FS watcher." [];
                                ObsLog Info "Start working on node %s"
                                  [ArgString (os_Getenv_NodeName (ext w))];
                                ObsLog Info "Starting OS watcher." []] |}
  end.
Proof.
  unfold start, deferClose. unfold bind at 1 2 3 4. unfold klog, emit, call at 1 2 3.
  cbn [ext trace fst snd].
  destruct (newFSWatcher (InitGlobalClient (ext w))) as [[err|] x]; [reflexivity|].
  unfold bind at 1 2 3 4. unfold call. cbn [ext trace fst snd].
  rewrite <- !app_assoc. cbn [app]. fold vars0.
  destruct (restartPass c flags vars0 _) as [[[v|err]|msg] w1]; reflexivity.
Qed.


(** ** More on the pass *)

(** X1. When loading the configuration or building the plugins fails in a
    pass (whichever step it is that fails), [start] returns the error
    wrapped as "error starting plugins", and between the stop step and the
    return nothing but log lines is observed: no plugin is started or
    stopped. *)
Theorem construction_failure_ends_start (c : cli_Context) (flags : list cli_Flag)
    (v : vars) (w w1 w2 : world) (err : error) :
  stopPrevious v w = (Val None, w1) ->
  constructPlugins c flags (record w1 [ObsLog Info "Starting Plugins." []]) =
    (Val (inr err), w2) ->
  restartPass c flags v w =
    (Val (Return (Some (Errorf_v "error starting plugins: %v" err))), w2) /\
  ext w2 = ext (snd (constructPlugins c flags (record w1 []))) /\
  effects (trace w2) = effects (trace w1) /\
  startCalls (trace w2) = startCalls (trace w1) /\
  stopCalls (trace w2) = stopCalls (trace w1).
Proof.
  intros Hstop Hcons.
  destruct (runs_constructPlugins c flags (ext w1)) as (r & x' & tr & Hlog & Hrun).
  assert (Hw2 : w2 = {| ext := x';
                        trace := (trace w1 ++ [ObsLog Info "Starting Plugins." []]) ++ tr |}).
  { unfold record in Hcons. rewrite Hrun in Hcons. congruence. }
  destruct (Forall_isLog_weaken Hlog) as (Hs1 & Hs2 & _).
  split; [|split; [|split; [|split]]].
  - rewrite restartPass_run, Hstop, startPass_run, startPlugins_factor, Hcons. reflexivity.
  - unfold record. rewrite Hrun, Hw2. reflexivity.
  - rewrite Hw2. simpl. rewrite !effects_app. simpl.
    rewrite (effects_logs Hlog), !app_nil_r. reflexivity.
  - rewrite Hw2. simpl. rewrite !startCalls_app. simpl.
    rewrite (startCalls_logs Hs2), !app_nil_r. reflexivity.
  - rewrite Hw2. simpl. rewrite !stopCalls_app. simpl.
    rewrite (stopCalls_logs Hs1), !app_nil_r. reflexivity.
Qed.

(** X2. In every pass, whatever its result, the [Stop] calls come first:
    one for each plugin of the previous pass, in order, when [restarting] is
    set, none otherwise; everything observed after them is a log line or a
    [Start] call. *)
Theorem pass_stops_before_it_starts (c : cli_Context) (flags : list cli_Flag)
    (v : vars) (w : world) :
  exists tr,
    trace (snd (restartPass c flags v w)) =
      trace w
      ++ (if restarting v
          then ObsLog Info "Stopping plugins." [] :: map ObsStop (plugins v)
          else [])
      ++ tr /\
    Forall startOrLog tr /\
    stopCalls tr = [].
Proof.
  rewrite restartPass_run, stopPrevious_run.
  destruct (restarting v).
  - destruct (NewAggregate (fst (stopResults (plugins v) (ext w)))) as [err|].
    + exists []. simpl. rewrite app_nil_r. repeat split. constructor.
    + destruct (runs_at
                  {| ext := snd (stopResults (plugins v) (ext w));
                     trace := trace w ++ ObsLog Info "Stopping plugins." []
                                      :: map ObsStop (plugins v) |}
                  (runs_startPass c flags v)) as (r & x' & tr & HP & Hrun).
      exists tr. rewrite Hrun. simpl. rewrite <- app_assoc.
      split; [reflexivity|]. split; [assumption | apply stopCalls_logs; assumption].
  - destruct (runs_at w (runs_startPass c flags v)) as (r & x' & tr & HP & Hrun).
    exists tr. rewrite Hrun. simpl.
    split; [reflexivity|]. split; [assumption | apply stopCalls_logs; assumption].
Qed.



Lemma int_wrap_small (z : Z) : - 2 ^ 63 <= z < 2 ^ 63 -> int_wrap z = z.
Proof.
  intros H. unfold int_wrap. rewrite Z.mod_small; lia.
Qed.

Lemma startLoop_count (ps : list Plugin) (x x' : W) :
  startsOK ps x x' ->
  forall started tr,
    0 <= started ->
    started + Z.of_nat (length (filter hasDevices ps)) < 2 ^ 63 ->
    startLoop ps started {| ext := x; trace := tr |} =
    (Val (Some (started + Z.of_nat (length (filter hasDevices ps)))),
     {| ext := x'; trace := tr ++ map ObsStart (filter hasDevices ps) |}).
Proof.
  induction 1 as [x | p ps x x' Hp _ IH | p ps x x1 x' Hp HS _ IH];
    intros started tr H0 Hlt.
  - simpl. unfold ret. rewrite app_nil_r, Z.add_0_r. reflexivity.
  - cbn [startLoop filter] in *. rewrite Hp in *. unfold hasDevices in Hp.
    apply negb_false_iff in Hp. rewrite Hp. apply IH; assumption.
  - cbn [startLoop filter] in *. rewrite Hp in *. unfold hasDevices in Hp.
    apply negb_true_iff in Hp. rewrite Hp.
    cbn [length map] in *. rewrite Nat2Z.inj_succ in *.
    unfold p_Start. run. rewrite HS.
    rewrite int_wrap_small by lia.
    rewrite IH by lia. rewrite <- app_assoc.
    replace (started + 1 + Z.of_nat (length (filter hasDevices ps)))
      with (started + Z.succ (Z.of_nat (length (filter hasDevices ps)))) by lia.
    reflexivity.
Qed.

(** X4. When every plugin of the constructed list that has a device
    starts, [startPlugins] logs "No devices found. Waiting indefinitely."
    exactly when no plugin of the list has a device (the list being shorter
    than 2^63, as a Go slice is). *)
Theorem no_devices_notice_iff_nothing_started (c : cli_Context) (flags : list cli_Flag)
    (b : bool) (w w2 : world) (ps : list Plugin) (x' : W) :
  constructPlugins c flags w = (Val (inl ps), w2) ->
  startsOK ps (ext w2) x' ->
  Z.of_nat (length ps) < 2 ^ 63 ->
  startPlugins c flags b w =
    (Val (ps, false, None),
     {| ext := x';
        trace := trace w2 ++ map ObsStart (filter hasDevices ps)
                          ++ (if existsb hasDevices ps then [] else [noDevicesNotice]) |}) /\
  (existsb hasDevices ps = false <-> Forall (fun p => Devices p = []) ps).
Proof.
  intros Hcons Hok Hlen.
  assert (Hfl : Z.of_nat (length (filter hasDevices ps)) <= Z.of_nat (length ps)).
  { apply Nat2Z.inj_le. clear. induction ps as [|p ps IH]; simpl; [lia|].
    destruct (hasDevices p); simpl; lia. }
  assert (Hex : existsb hasDevices ps = negb (Z.of_nat (length (filter hasDevices ps)) =? 0)).
  { clear. induction ps as [|p ps IH]; simpl; [reflexivity|].
    destruct (hasDevices p); simpl; [|assumption].
    destruct (Z.eqb_spec (Z.of_nat (S (length (filter hasDevices ps)))) 0); [lia|reflexivity]. }
  split.
  - rewrite startPlugins_factor, Hcons. unfold startConstructed, bind.
    rewrite <- (world_eta w2) at 1.
    rewrite (startLoop_count Hok) by lia. rewrite Z.add_0_l, Hex.
    destruct (Z.of_nat (length (filter hasDevices ps)) =? 0); run.
    + rewrite <- app_assoc. reflexivity.
    + rewrite app_nil_r. reflexivity.
  - clear. induction ps as [|p ps IH]; simpl.
    + split; [constructor | reflexivity].
    + rewrite orb_false_iff, IH, hasDevices_false.
      split; [intros [H1 H2]; constructor; assumption | intros H; inversion H; auto].
Qed.


(** ** More on the loop *)

Lemma land_Create_testbit (op : Z) :
  (Z.land op fsnotify_Create =? fsnotify_Create) = Z.testbit op 0.
Proof.
  unfold fsnotify_Create. change 1 with (Z.ones 1) at 1.
  rewrite Z.land_ones by lia. change (2 ^ 1) with 2.
  rewrite <- Z.bit0_mod. destruct (Z.testbit op 0); reflexivity.
Qed.

(** X5. A filesystem event makes [start] go to [restart] exactly when its
    name is the kubelet socket and the Create bit (bit 0) of its [Op] is
    set, whatever the other bits are; it then logs one line.  Every other
    filesystem event is dropped: nothing is logged, and the loop goes on as
    if the event had not come. *)
Theorem watcher_event_restarts_on_socket_creation (c : cli_Context)
    (flags : list cli_Flag) (v : vars) (name : string) (op : Z)
    (rest : list selected) (w : world) :
  selectCase v (FromWatcherEvents name op) w =
    (if (name =? "/var/lib/kubelet/device-plugins/kubelet.sock")%string && Z.testbit op 0
     then (Val (GotoRestart, v),
           record w [ObsLog Info "inotify: %s created, restarting."
                       [ArgString "/var/lib/kubelet/device-plugins/kubelet.sock"]])
     else (Val (Again, v), w)) /\
  ((name =? "/var/lib/kubelet/device-plugins/kubelet.sock")%string && Z.testbit op 0 = false ->
   forLoop c flags (FromWatcherEvents name op :: rest) v w = forLoop c flags rest v w).
Proof.
  assert (Hsel : selectCase v (FromWatcherEvents name op) w =
                 (if (name =? "/var/lib/kubelet/device-plugins/kubelet.sock")%string
                     && Z.testbit op 0
                  then (Val (GotoRestart, v),
                        record w [ObsLog Info "inotify: %s created, restarting."
                                    [ArgString "/var/lib/kubelet/device-plugins/kubelet.sock"]])
                  else (Val (Again, v), w))).
  { cbn [selectCase]. rewrite land_Create_testbit.
    change KubeletSocket with "/var/lib/kubelet/device-plugins/kubelet.sock"%string.
    destruct ((name =? "/var/lib/kubelet/device-plugins/kubelet.sock")%string
              && Z.testbit op 0); reflexivity. }
  split; [exact Hsel|].
  intros H. cbn [forLoop]. unfold bind at 1. rewrite Hsel, H. reflexivity.
Qed.

Lemma len_pos {A : Type} (s : slice A) : (len s >? 0) = true <-> elems s <> [].
Proof.
  destruct s as [[|a l]|]; simpl; split; intros H; try discriminate;
    try (contradiction H; reflexivity).
  apply Z.gtb_lt. lia.
Qed.

Lemma In_resourcesNotice (config : spec.Config) (o : obs) :
  In o (resourcesNotice config) <->
  o = ObsLog Info
        "Customizing the 'resources' field is not yet supported in the config. Ignoring..."
        [] /\
  (elems (spec.GPUs (spec.ConfigResources config)) <> [] \/
   elems (spec.MIGs (spec.ConfigResources config)) <> []).
Proof.
  unfold resourcesNotice. rewrite <- !len_pos, <- orb_true_iff.
  destruct ((len (spec.GPUs (spec.ConfigResources config)) >? 0)
            || (len (spec.MIGs (spec.ConfigResources config)) >? 0)); simpl.
  - split; [intros [H|[]]; split; [symmetry; exact H | reflexivity]
           | intros [H _]; left; symmetry; exact H].
  - split; [intros [] | intros [_ H]; discriminate H].
Qed.

Lemma In_warnings (config : spec.Config) (o : obs) :
  In o (renameWarning config ++ devicesWarning config) ->
  exists format, o = ObsLog Warning format [].
Proof.
  unfold renameWarning, devicesWarning. rewrite in_app_iff.
  intros [H|H];
    match type of H with In _ (if ?b then _ else _) => destruct b end;
    simpl in H; try contradiction; destruct H as [H|[]]; eexists; symmetry; exact H.
Qed.

(** X8. [disableResourceRenamingInConfig] leaves the outside world, the
    version, every flag, [RenameByDefault], [FailRequestsGreaterThanOne] and
    the number of entries of [Sharing.TimeSlicing.Resources] as they were;
    [Resources.GPUs] and [Resources.MIGs] are nil afterwards, and the line
    "Customizing the 'resources' field ..." is logged exactly when one of
    them had an element. *)
Theorem disableResourceRenamingInConfig_frame (config : spec.Config) (w : world) :
  exists config' w',
    disableResourceRenamingInConfig config w = (Val config', w') /\
    ext w' = ext w /\
    spec.Version config' = spec.Version config /\
    spec.Flags config' = spec.Flags config /\
    spec.GPUs (spec.ConfigResources config') = None /\
    spec.MIGs (spec.ConfigResources config') = None /\
    spec.RenameByDefault (spec.SharingTimeSlicing (spec.ConfigSharing config')) =
      spec.RenameByDefault (spec.SharingTimeSlicing (spec.ConfigSharing config)) /\
    spec.FailRequestsGreaterThanOne (spec.SharingTimeSlicing (spec.ConfigSharing config')) =
      spec.FailRequestsGreaterThanOne (spec.SharingTimeSlicing (spec.ConfigSharing config)) /\
    len (spec.TSResources (spec.SharingTimeSlicing (spec.ConfigSharing config'))) =
      len (spec.TSResources (spec.SharingTimeSlicing (spec.ConfigSharing config))) /\
    (exists tr,
       trace w' = trace w ++ tr /\
       (In (ObsLog Info
              "Customizing the 'resources' field is not yet supported in the config. Ignoring..."
              []) tr <->
        elems (spec.GPUs (spec.ConfigResources config)) <> [] \/
        elems (spec.MIGs (spec.ConfigResources config)) <> [])).
Proof.
  do 2 eexists. split; [apply disableResourceRenamingInConfig_run|].
  cbn [ext trace].
  split; [reflexivity|].
  assert (Hlog : exists tr,
             trace w ++ resourcesNotice config ++ renameWarning config
                     ++ devicesWarning config = trace w ++ tr /\
             (In (ObsLog Info
                    "Customizing the 'resources' field is not yet supported in the config. Ignoring..."
                    []) tr <->
              elems (spec.GPUs (spec.ConfigResources config)) <> [] \/
              elems (spec.MIGs (spec.ConfigResources config)) <> [])).
  { eexists. split; [reflexivity|]. rewrite in_app_iff, In_resourcesNotice. split.
    - intros [[_ H]|H]; [exact H|]. apply In_warnings in H. destruct H as [f H].
      discriminate H.
    - intros H. left. split; [reflexivity | exact H]. }
  destruct (spec.TSResources (spec.SharingTimeSlicing (spec.ConfigSharing config)))
    as [rs|] eqn:HT.
  - pose proof (resourcesLoop_run
                  (spec.RenameByDefault (spec.SharingTimeSlicing (spec.ConfigSharing config)))
                  rs false false) as [HN _].
    apply Forall2_length in HN.
    repeat (split; [reflexivity|]).
    split; [|exact Hlog].
    simpl. rewrite ?HT. simpl. rewrite HN. reflexivity.
  - repeat (split; [reflexivity|]).
    split; [|exact Hlog].
    simpl. rewrite ?HT. reflexivity.
Qed.


(** ** More on start and main *)

Lemma runs_ext (P : obs -> Prop) {A : Type} (m m' : M A) :
  (forall w, m w = m' w) -> runs P m -> runs P m'.
Proof.
  intros Heq Hm x. destruct (Hm x) as (r & x' & tr & HP & H).
  exists r, x', tr. split; [assumption|]. intros t. rewrite <- Heq. apply H.
Qed.

(** What [start] does once the watchers are set up. *)
Lemma runs_passes (c : cli_Context) (flags : list cli_Flag) (schedule : list selected) :
  runs notClose
    (fun w0 =>
       match restartPass c flags vars0 w0 with
       | (Val (Next v), w1) => forLoop c flags schedule v w1
       | (Val (Return err), w1) => (Val (Returned err), w1)
       | (Panic msg, w1) => (Panic msg, w1)
       end).
Proof.
  apply runs_ext
    with (m := bind (restartPass c flags vars0)
                 (fun r => match r with
                           | Next v => forLoop c flags schedule v
                           | Return err => ret (Returned err)
                           end)).
  - intros w. unfold bind.
    destruct (restartPass c flags vars0 w) as [[[v|err]|msg] w1]; reflexivity.
  - apply runs_bind; [apply runs_restartPass|].
    intros [v|err]; [apply runs_forLoop | apply runs_ret].
Qed.

(** X9. In every run of [start], [watcher.Close] is called once, as the
    last thing observed, when [start] returns or panics after the watcher
    was made; it is not called when the watcher could not be made, nor
    while [start] waits in the [select]. *)
Theorem watcher_closed_when_start_ends (c : cli_Context) (flags : list cli_Flag)
    (schedule : list selected) (w : world) :
  exists tr,
    trace (snd (start c flags schedule w)) = trace w ++ tr /\
    match fst (start c flags schedule w), fst (newFSWatcher (InitGlobalClient (ext w))) with
    | Val (Waiting _), _ => ~ In ObsWatcherClose tr
    | Val Unreachable, _ => ~ In ObsWatcherClose tr
    | _, Some _ => ~ In ObsWatcherClose tr
    | _, None => exists tr0, tr = tr0 ++ [ObsWatcherClose] /\ ~ In ObsWatcherClose tr0
    end.
Proof.
  rewrite start_run.
  destruct (newFSWatcher (InitGlobalClient (ext w))) as [[err|] x]; cbn [fst snd].
  - eexists. split; [reflexivity|]. simpl. intros [H|[]]. discriminate H.
  - unfold deferClose.
    destruct (runs_passes c flags schedule (newOSWatcher x)) as (r & x' & tr & HP & Hrun).
    rewrite Hrun. apply notClose_not_in in HP.
    assert (Hpre : ~ In ObsWatcherClose
                     ([ObsLog Info "Starting FS watcher." [];
                       ObsLog Info "Start working on node %s"
                         [ArgString (os_Getenv_NodeName (ext w))];
                       ObsLog Info "Starting OS watcher." []] ++ tr)).
    { intros H. apply in_app_or in H. destruct H as [H|H]; [|exact (HP H)].
      simpl in H. repeat (destruct H as [H|H]; [discriminate H|]). exact H. }
    set (pre := [ObsLog Info "Starting FS watcher." [];
                 ObsLog Info "Start working on node %s"
                   [ArgString (os_Getenv_NodeName (ext w))];
                 ObsLog Info "Starting OS watcher." []]) in *.
    destruct r as [[err|v|]|msg]; cbn [fst snd trace].
    + exists ((pre ++ tr) ++ [ObsWatcherClose]).
      split; [rewrite <- !app_assoc; reflexivity|].
      exists (pre ++ tr). split; [reflexivity | exact Hpre].
    + exists (pre ++ tr). split; [rewrite <- !app_assoc; reflexivity | exact Hpre].
    + exists (pre ++ tr). split; [rewrite <- !app_assoc; reflexivity | exact Hpre].
    + exists ((pre ++ tr) ++ [ObsWatcherClose]).
      split; [rewrite <- !app_assoc; reflexivity|].
      exists (pre ++ tr). split; [reflexivity | exact Hpre].
Qed.






(** ** Receptions that ask the same of the loop *)

Lemma sameEffects_record (a b : world) (tr1 tr2 : list obs) :
  sameEffects a b -> Forall isLog tr1 -> Forall isLog tr2 ->
  sameEffects (record a tr1) (record b tr2).
Proof.
  intros [Hx Ht] H1 H2. split; [assumption|]. simpl.
  rewrite !effects_app, (effects_logs H1), (effects_logs H2), Ht. reflexivity.
Qed.

Lemma selectCase_ignored (v : vars) (ev : selected) :
  triggerOf ev = None ->
  exists tr, Forall isLog tr /\ forall w, selectCase v ev w = (Val (Again, v), record w tr).
Proof.
  destruct ev as [|name op|err|s]; simpl; intros H.
  - discriminate H.
  - destruct ((name =? KubeletSocket)%string
              && (Z.land op fsnotify_Create =? fsnotify_Create)); [discriminate H|].
    exists []. split; [constructor|]. intros w. unfold ret, record.
    rewrite app_nil_r, world_eta. reflexivity.
  - eexists. split; [|intros w; reflexivity]. repeat constructor.
  - destruct s; discriminate H.
Qed.

Lemma selectCase_canonical (v : vars) (ev : selected) (k : trigger) :
  triggerOf ev = Some k ->
  exists j v1 tr1 tr2,
    Forall isLog tr1 /\ Forall isLog tr2 /\ j <> Again /\
    forall w,
      selectCase v ev w = (Val (j, v1), record w tr1) /\
      selectCase v (canonical k) w = (Val (j, v1), record w tr2).
Proof.
  assert (Hnil : forall w, w = record w []).
  { intros w. unfold record. rewrite app_nil_r, world_eta. reflexivity. }
  destruct ev as [|name op|err|s]; simpl; intros H.
  - injection H as H. subst k. simpl.
    destruct (restartTimeout v) as [|d [|]];
      [exists NotReady, v, [], [] | exists NotReady, v, [], []
      |exists GotoRestart, (set_restartTimeout v (afterChan d true)), [], []];
      (split; [apply Forall_nil|]); (split; [apply Forall_nil|]);
      (split; [discriminate|]); intros w; unfold ret; rewrite <- Hnil; split; reflexivity.
  - destruct ((name =? KubeletSocket)%string
              && (Z.land op fsnotify_Create =? fsnotify_Create)); [|discriminate H].
    injection H as H. subst k.
    exists GotoRestart, v. do 2 eexists.
    split; [|split; [|split; [discriminate|intros w; split; reflexivity]]];
      repeat constructor.
  - discriminate H.
  - destruct s; injection H as H; subst k;
      [exists GotoRestart, v | exists GotoExit, v | exists GotoExit, v | exists GotoExit, v];
      do 2 eexists;
      (split; [|split; [|split; [discriminate|intros w; split; reflexivity]]]);
      repeat constructor.
Qed.

Lemma forLoop_canonical (c : cli_Context) (flags : list cli_Flag)
    (schedule : list selected) :
  forall v a b,
    sameEffects a b ->
    fst (forLoop c flags schedule v a) =
      fst (forLoop c flags (map canonical (triggers schedule)) v b) /\
    sameEffects (snd (forLoop c flags schedule v a))
                (snd (forLoop c flags (map canonical (triggers schedule)) v b)).
Proof.
  induction schedule as [|ev rest IH]; intros v a b Hab.
  - simpl. split; [reflexivity | assumption].
  - cbn [triggers]. destruct (triggerOf ev) as [k|] eqn:Hk.
    + destruct (selectCase_canonical v _ Hk)
        as (j & v1 & tr1 & tr2 & H1 & H2 & Hj & Hsel).
      cbn [map forLoop]. unfold bind.
      destruct (Hsel a) as [Ha _]. destruct (Hsel b) as [_ Hb]. rewrite Ha, Hb.
      pose proof (sameEffects_record Hab H1 H2) as Hab1.
      destruct j; [contradiction Hj; reflexivity| | |].
      * destruct (runs_sameEffects (runs_restartPass c flags v1) Hab1) as [Hr Hw].
        destruct (restartPass c flags v1 (record a tr1)) as [ra wa].
        destruct (restartPass c flags v1 (record b tr2)) as [rb wb].
        simpl in Hr, Hw. subst rb.
        destruct ra as [[v2|err]|msg]; [apply IH; assumption | |];
          (split; [reflexivity | assumption]).
      * destruct (runs_sameEffects (runs_exitPath v1) Hab1) as [Hr Hw].
        destruct (exitPath v1 (record a tr1)) as [ra wa].
        destruct (exitPath v1 (record b tr2)) as [rb wb].
        simpl in Hr, Hw. subst rb.
        destruct ra as [err|msg]; (split; [reflexivity | assumption]).
      * split; [reflexivity | assumption].
    + destruct (selectCase_ignored v _ Hk) as (tr & Htr & Hsel).
      cbn [forLoop]. unfold bind. rewrite Hsel.
      apply IH. replace b with (record b []).
      * apply sameEffects_record; [assumption | assumption | constructor].
      * unfold record. rewrite app_nil_r, world_eta. reflexivity.
Qed.

(** X6. What [start] does is decided by what its receptions ask of the
    loop: filesystem errors, and filesystem events other than the creation
    of the kubelet socket, count for nothing; the creation of the kubelet
    socket counts as SIGHUP; SIGINT, SIGTERM and SIGQUIT count alike.  Two
    schedules that agree in this way give the same outcome of [start], the
    same outside world, and the same [Start], [Stop] and [Close] calls in the
    same order; they can differ in log lines only. *)
Theorem start_depends_on_triggers_only (c : cli_Context) (flags : list cli_Flag)
    (s1 s2 : list selected) (w : world) :
  triggers s1 = triggers s2 ->
  fst (start c flags s1 w) = fst (start c flags s2 w) /\
  ext (snd (start c flags s1 w)) = ext (snd (start c flags s2 w)) /\
  effects (trace (snd (start c flags s1 w))) = effects (trace (snd (start c flags s2 w))).
Proof.
  intros Htr. rewrite !start_run.
  destruct (newFSWatcher (InitGlobalClient (ext w))) as [[err|] x];
    [repeat split|].
  unfold deferClose.
  match goal with
  | |- context [restartPass c flags vars0 ?w0] =>
      destruct (restartPass c flags vars0 w0) as [[[v|err]|msg] wa]
  end; [|repeat split..].
  destruct (forLoop_canonical c flags s1 v (sameEffects_refl wa)) as [Hr1 Hw1].
  destruct (forLoop_canonical c flags s2 v (sameEffects_refl wa)) as [Hr2 Hw2].
  rewrite <- Htr in Hr2, Hw2.
  pose proof (sameEffects_trans Hw1 (sameEffects_sym Hw2)) as [Hx Hef].
  rewrite <- Hr2 in Hr1. clear Hr2 Hw1 Hw2.
  destruct (forLoop c flags s1 v wa) as [r1 w1].
  destruct (forLoop c flags s2 v wa) as [r2 w2].
  simpl in Hr1, Hx, Hef. subst r2.
  destruct r1 as [[err|v1|]|msg]; cbn [fst snd ext trace];
    rewrite ?effects_app, ?Hx, ?Hef; repeat split; assumption.
Qed.

End Properties.

(** * Concrete runs *)

#[local] Existing Instance Sim.env.

(** C10, on a concrete run: the flags of [main] with their defaults. *)
Lemma loadConfig_clears_GFD_witness :
  spec.GFD (spec.Flags (spec.set_GFD Sim.defaultConfig None)) = None /\
  exists config0,
    NewConfig Sim.defaultConfig [] (ext (Sim.world0 [])) = (inl config0, ext (Sim.world0 [])) /\
    validateFlags config0 (Sim.world0 []) = (Val None, Sim.world0 []) /\
    trace (Sim.world0 []) = trace (Sim.world0 []) /\
    spec.set_GFD Sim.defaultConfig None = spec.set_GFD config0 None /\
    spec.Version (spec.set_GFD Sim.defaultConfig None) = spec.Version config0 /\
    spec.MigStrategy (spec.Flags (spec.set_GFD Sim.defaultConfig None))
      = spec.MigStrategy (spec.Flags config0) /\
    spec.FailOnInitError (spec.Flags (spec.set_GFD Sim.defaultConfig None))
      = spec.FailOnInitError (spec.Flags config0) /\
    spec.NvidiaDriverRoot (spec.Flags (spec.set_GFD Sim.defaultConfig None))
      = spec.NvidiaDriverRoot (spec.Flags config0) /\
    spec.GDSEnabled (spec.Flags (spec.set_GFD Sim.defaultConfig None))
      = spec.GDSEnabled (spec.Flags config0) /\
    spec.MOFEDEnabled (spec.Flags (spec.set_GFD Sim.defaultConfig None))
      = spec.MOFEDEnabled (spec.Flags config0) /\
    spec.Plugin (spec.Flags (spec.set_GFD Sim.defaultConfig None))
      = spec.Plugin (spec.Flags config0) /\
    spec.ConfigResources (spec.set_GFD Sim.defaultConfig None) = spec.ConfigResources config0 /\
    spec.ConfigSharing (spec.set_GFD Sim.defaultConfig None) = spec.ConfigSharing config0.
Proof.
  apply (@loadConfig_clears_GFD Sim.env Sim.defaultConfig [] (Sim.world0 []) (Sim.world0 [])).
  reflexivity.
Defined.

(** C7, on concrete runs: a device-list strategy that is not one of
    [envvar], [volume-mounts], [cdi-annotations]; a device-ID strategy that
    is neither [uuid] nor [index]; and strategies that are all valid. *)
Lemma loadConfig_validates_strategies_witness :
  loadConfig (Sim.config ["envvar"; "volume-mount"]%string "uuid" false None) []
             (Sim.world0 []) =
    (Val (inr (Errorf_v "unable to validate flags: %v"
                 (Errorf_v "invalid --device-list-strategy option: %v"
                    (Errorf_s "invalid strategy: %v" "volume-mount")))),
     Sim.world0 []) /\
  loadConfig (Sim.config ["envvar"]%string "UUID" false None) [] (Sim.world0 []) =
    (Val (inr (Errorf_v "unable to validate flags: %v"
                 (Errorf_s "invalid --device-id-strategy option: %v" "UUID"))),
     Sim.world0 []) /\
  validateFlags (Sim.config ["volume-mounts"; "cdi-annotations"]%string "index" false None)
                (Sim.world0 []) =
    (Val None, Sim.world0 []).
Proof.
  split; [|split].
  - apply (@loadConfig_validates_strategies Sim.env
             (Sim.config ["envvar"; "volume-mount"]%string "uuid" false None) []
             (Sim.world0 []) _ _ _ _ _ eq_refl eq_refl eq_refl eq_refl).
    reflexivity.
  - apply (@loadConfig_validates_strategies Sim.env
             (Sim.config ["envvar"]%string "UUID" false None) []
             (Sim.world0 []) _ _ _ _ _ eq_refl eq_refl eq_refl eq_refl).
    + reflexivity.
    + discriminate.
    + discriminate.
  - apply (@loadConfig_validates_strategies Sim.env
             (Sim.config ["volume-mounts"; "cdi-annotations"]%string "index" false None) []
             (Sim.world0 []) _ _ _ _ _ eq_refl eq_refl eq_refl eq_refl).
    + reflexivity.
    + right. reflexivity.
Defined.

(** C5, as the claim has it, fails on an entry that comes with
    [Devices.All] set together with a count and a list: the entry is left
    as it is, so that its [Devices.Count] is 5 and its [Devices.List] is not
    nil after the normalisation. *)
Lemma disableResourceRenamingInConfig_keeps_count_counterexample :
  exists config' w' r',
    disableResourceRenamingInConfig
      (Sim.config ["envvar"%string] "uuid" false (Some [Sim.allWithCount]))
      (Sim.world0 []) = (Val config', w') /\
    spec.TSResources (spec.SharingTimeSlicing (spec.ConfigSharing config')) = Some [r'] /\
    spec.All (spec.Devices r') = true /\
    spec.Count (spec.Devices r') = 5 /\
    spec.Count (spec.Devices r') <> 0 /\
    spec.List (spec.Devices r') = Some ["GPU-0"%string] /\
    spec.List (spec.Devices r') <> None /\
    trace w' = [].
Proof.
  do 3 eexists. split; [reflexivity|]. simpl.
  repeat split; try reflexivity; discriminate.
Qed.

(** C1, on a concrete run: the plugin of the previous pass stops without
    error, and the pass goes on. *)
Lemma restart_stops_previous_plugins_first_witness :
  exists w1,
    @stopPlugins Sim.env [Sim.healthy "gpu"] (Sim.world0 [[Sim.healthy "gpu"]]) = (Val None, w1) /\
    stopCalls (trace w1) = [Sim.healthy "gpu"] /\
    restartPass Sim.defaultConfig []
      (Sim.state true nilChan [Sim.healthy "gpu"])
      (Sim.world0 [[Sim.healthy "gpu"]]) =
    startPass Sim.defaultConfig []
      (Sim.state true nilChan [Sim.healthy "gpu"])
      w1.
Proof.
  destruct (@restart_stops_previous_plugins_first Sim.env Sim.defaultConfig []
              (Sim.state true nilChan [Sim.healthy "gpu"])
              (Sim.world0 [[Sim.healthy "gpu"]]) eq_refl)
    as (w1 & Hstop & _ & Hcalls & Hgo & _).
  exists w1. split; [exact Hstop|]. split; [exact Hcalls|]. apply Hgo. reflexivity.
Defined.

(** C1, as the claim has it, fails when a plugin of the previous pass does
    not stop: after SIGHUP, [start] returns the error of the stop step; the
    plugin set of the new pass is never asked for, and nothing is started
    beyond the plugin of the first pass. *)
Lemma restart_blocked_by_stop_error_counterexample :
  exists w',
    start Sim.defaultConfig [] [FromSigs SIGHUP]
          (Sim.world0 [[Sim.failsToStop "gpu"]; [Sim.healthy "gpu"]]) =
      (Val (Returned
              (Some (Errorf_v "error stopping plugins from previous run: %v"
                       (Aggregate [ErrExternal "socket busy"])))), w') /\
    ext w' = [[Sim.healthy "gpu"]] /\
    startCalls (trace w') = [Sim.failsToStop "gpu"] /\
    stopCalls (trace w') = [Sim.failsToStop "gpu"] /\
    ~ In (Info, "Loading configuration."%string)
         (skipn 5 (logLines (trace w'))).
Proof.
  exists (snd (@start Sim.env Sim.defaultConfig [] [FromSigs SIGHUP]
                 (Sim.world0 [[Sim.failsToStop "gpu"]; [Sim.healthy "gpu"]]))).
  vm_compute. repeat split.
  intros H. repeat (destruct H as [H|H]; [discriminate|]). exact H.
Qed.

(** C2, on a concrete run: two plugins that stop without error. *)
Lemma terminal_signal_stops_every_plugin_witness :
  exists w2,
    main Sim.defaultConfig [] [FromSigs SIGTERM]
         (Sim.world0 [[Sim.healthy "gpu"; Sim.healthy "mig"]]) = (Some 0, w2) /\
    stopCalls (trace w2) = [Sim.healthy "gpu"; Sim.healthy "mig"].
Proof.
  destruct (@terminal_signal_stops_every_plugin Sim.env Sim.defaultConfig []
              [] [] SIGTERM
              (Sim.state true nilChan [Sim.healthy "gpu"; Sim.healthy "mig"])
              (Sim.world0 [[Sim.healthy "gpu"; Sim.healthy "mig"]])
              (snd (@start Sim.env Sim.defaultConfig [] []
                      (Sim.world0 [[Sim.healthy "gpu"; Sim.healthy "mig"]]))))
    as (status & w2 & Hmain & Hstops & _ & Hstatus & _).
  - discriminate.
  - vm_compute. reflexivity.
  - exists w2. vm_compute in Hstatus. subst status. split; [exact Hmain | exact Hstops].
Defined.

(** C2, as the claim has it, fails when a [Stop] returns an error: every
    plugin is stopped, once, and the exit status is 1. *)
Lemma terminal_signal_exit_status_counterexample :
  exists w',
    main Sim.defaultConfig [] [FromSigs SIGTERM]
         (Sim.world0 [[Sim.failsToStop "gpu"; Sim.healthy "mig"]]) = (Some 1, w') /\
    stopCalls (trace w') = [Sim.failsToStop "gpu"; Sim.healthy "mig"].
Proof.
  exists (snd (@main Sim.env Sim.defaultConfig [] [FromSigs SIGTERM]
                 (Sim.world0 [[Sim.failsToStop "gpu"; Sim.healthy "mig"]]))).
  vm_compute. split; reflexivity.
Qed.

(** C3, on a concrete run: four plugins, the first without devices, the
    third failing to start. *)
Lemma first_start_failure_degrades_pass_witness :
  exists w3,
    restartPass Sim.defaultConfig [] vars0
      (Sim.world0 [[Sim.noDevices "mig"; Sim.healthy "gpu0";
                    Sim.failsToStart "gpu1"; Sim.healthy "gpu2"]]) =
      (Val (Next (Sim.state true (afterChan 30000000000 false)
                    [Sim.noDevices "mig"; Sim.healthy "gpu0";
                     Sim.failsToStart "gpu1"; Sim.healthy "gpu2"])), w3) /\
    startCalls (trace w3) = [Sim.healthy "gpu0"; Sim.failsToStart "gpu1"].
Proof.
  destruct (@first_start_failure_degrades_pass Sim.env Sim.defaultConfig [] vars0
              (Sim.world0 [[Sim.noDevices "mig"; Sim.healthy "gpu0";
                            Sim.failsToStart "gpu1"; Sim.healthy "gpu2"]])
              (Sim.world0 [[Sim.noDevices "mig"; Sim.healthy "gpu0";
                            Sim.failsToStart "gpu1"; Sim.healthy "gpu2"]])
              (snd (@constructPlugins Sim.env Sim.defaultConfig []
                      (record (Sim.world0 [[Sim.noDevices "mig"; Sim.healthy "gpu0";
                                            Sim.failsToStart "gpu1"; Sim.healthy "gpu2"]])
                              [ObsLog Info "Starting Plugins." []])))
              [Sim.noDevices "mig"; Sim.healthy "gpu0"] [Sim.healthy "gpu2"]
              (Sim.failsToStart "gpu1") [] []
              (ErrExternal "kubelet unreachable"))
    as (w3 & v' & _ & Hcalls & _ & _ & Hpass & Hv & _).
  - reflexivity.
  - vm_compute. reflexivity.
  - refine (@startsOK_skip Sim.env (Sim.noDevices "mig") _ _ _ eq_refl _).
    refine (@startsOK_start Sim.env (Sim.healthy "gpu0") _ _ [] _ eq_refl eq_refl _).
    exact (@startsOK_nil Sim.env _).
  - reflexivity.
  - reflexivity.
  - subst v'. eexists. split; [exact Hpass|].
    simpl. rewrite startCalls_app. simpl. rewrite Hcalls, app_nil_r. reflexivity.
Defined.

(** C3, as the claim has it, fails: with a plugin list in which the first
    [Start] fails at index 0, the plugins kept for the stop step of the next
    pass are the whole list and not only the failed plugin; on SIGHUP,
    [Stop] is called on the second plugin too, which was never started. *)
Lemma owned_set_after_start_failure_counterexample :
  exists v w1 o w2,
    start Sim.defaultConfig [] [] (Sim.world0 [[Sim.failsToStart "gpu0"; Sim.healthy "gpu1"]]) =
      (Val (Waiting v), w1) /\
    startCalls (trace w1) = [Sim.failsToStart "gpu0"] /\
    plugins v = [Sim.failsToStart "gpu0"; Sim.healthy "gpu1"] /\
    plugins v <> [Sim.failsToStart "gpu0"] /\
    restartTimeout v = afterChan 30000000000 false /\
    start Sim.defaultConfig [] [FromSigs SIGHUP]
          (Sim.world0 [[Sim.failsToStart "gpu0"; Sim.healthy "gpu1"]]) = (Val o, w2) /\
    stopCalls (trace w2) = [Sim.failsToStart "gpu0"; Sim.healthy "gpu1"].
Proof.
  exists (Sim.state true (afterChan 30000000000 false)
            [Sim.failsToStart "gpu0"; Sim.healthy "gpu1"]).
  exists (snd (@start Sim.env Sim.defaultConfig [] []
                 (Sim.world0 [[Sim.failsToStart "gpu0"; Sim.healthy "gpu1"]]))).
  exists (Waiting (Sim.state true (afterChan 30000000000 false) [])).
  exists (snd (@start Sim.env Sim.defaultConfig [] [FromSigs SIGHUP]
                 (Sim.world0 [[Sim.failsToStart "gpu0"; Sim.healthy "gpu1"]]))).
  vm_compute. repeat split. discriminate.
Qed.

(** C8, on a concrete run: two plugins without devices. *)
Lemma pass_without_devices_is_quiescent_witness :
  exists w3,
    restartPass Sim.defaultConfig [] vars0
      (Sim.world0 [[Sim.noDevices "gpu"; Sim.noDevices "mig"]]) =
      (Val (Next (Sim.state true nilChan [Sim.noDevices "gpu"; Sim.noDevices "mig"])), w3) /\
    startCalls (trace w3) = [].
Proof.
  destruct (@pass_without_devices_is_quiescent Sim.env Sim.defaultConfig [] vars0
              (Sim.world0 [[Sim.noDevices "gpu"; Sim.noDevices "mig"]])
              (Sim.world0 [[Sim.noDevices "gpu"; Sim.noDevices "mig"]])
              (snd (@constructPlugins Sim.env Sim.defaultConfig []
                      (record (Sim.world0 [[Sim.noDevices "gpu"; Sim.noDevices "mig"]])
                              [ObsLog Info "Starting Plugins." []])))
              [Sim.noDevices "gpu"; Sim.noDevices "mig"])
    as (_ & Hcalls & Hpass).
  - reflexivity.
  - vm_compute. reflexivity.
  - repeat constructor.
  - eexists. split; [exact Hpass|]. rewrite Hcalls. reflexivity.
Defined.

(** C4, on a concrete run: the first pass fails to start its plugin and
    arms the timer; SIGHUP comes before the timer and the second pass
    starts its plugin; the channel still holds its value, and the case of
    [restartTimeout] leads to a third pass. *)
Lemma retry_timer_restarts_while_armed_witness :
  exists v w1,
    start Sim.defaultConfig [] [FromSigs SIGHUP]
          (Sim.world0 [[Sim.failsToStart "gpu"]; [Sim.healthy "gpu"]]) = (Val (Waiting v), w1) /\
    In retryNotice (trace w1) /\
    selectCase v FromRestartTimeout w1 =
      (Val (GotoRestart, set_restartTimeout v (afterChan (30 * time_Second) true)), w1).
Proof.
  exists (Sim.state true (afterChan 30000000000 false) [Sim.healthy "gpu"]).
  exists (snd (@start Sim.env Sim.defaultConfig [] [FromSigs SIGHUP]
                 (Sim.world0 [[Sim.failsToStart "gpu"]; [Sim.healthy "gpu"]]))).
  assert (Hstart :
            @start Sim.env Sim.defaultConfig [] [FromSigs SIGHUP]
                   (Sim.world0 [[Sim.failsToStart "gpu"]; [Sim.healthy "gpu"]]) =
            (Val (Waiting (Sim.state true (afterChan 30000000000 false) [Sim.healthy "gpu"])),
             snd (@start Sim.env Sim.defaultConfig [] [FromSigs SIGHUP]
                    (Sim.world0 [[Sim.failsToStart "gpu"]; [Sim.healthy "gpu"]])))).
  { vm_compute. reflexivity. }
  destruct (@retry_timer_restarts_while_armed Sim.env Sim.defaultConfig []
              [FromSigs SIGHUP] _ _ _ Hstart)
    as [(tr & Htr & [(_ & Hin & Hsel) | ([H | H] & _)]) _].
  - split; [exact Hstart|]. split; [|exact Hsel].
    rewrite Htr. apply in_or_app. right. exact Hin.
  - discriminate H.
  - discriminate H.
Defined.

(** C4, as the claim has it, fails: the first pass is degraded and arms
    the timer; the pass that SIGHUP starts is the most recent one and is not
    degraded ([startPlugins] returns the retry flag unset); after it, the
    case of [restartTimeout] is still taken and starts a third pass, which
    stops the plugin that the second pass had started. *)
Lemma retry_timer_after_good_pass_counterexample :
  exists v1 w1 wa wb v2 w2 v3 w3,
    start Sim.defaultConfig [] []
          (Sim.world0 [[Sim.failsToStart "gpu"]; [Sim.healthy "gpu"]; [Sim.healthy "gpu"]]) =
      (Val (Waiting v1), w1) /\
    restartTimeout v1 = afterChan 30000000000 false /\
    stopPrevious v1 (record w1 [ObsLog Info "Received SIGHUP, restarting." []]) =
      (Val None, wa) /\
    startPlugins Sim.defaultConfig [] (restarting v1)
                 (record wa [ObsLog Info "Starting Plugins." []]) =
      (Val ([Sim.healthy "gpu"], false, None), wb) /\
    start Sim.defaultConfig [] [FromSigs SIGHUP]
          (Sim.world0 [[Sim.failsToStart "gpu"]; [Sim.healthy "gpu"]; [Sim.healthy "gpu"]]) =
      (Val (Waiting v2), w2) /\
    w2 = wb /\
    selectCase v2 FromRestartTimeout w2 =
      (Val (GotoRestart, set_restartTimeout v2 (afterChan 30000000000 true)), w2) /\
    start Sim.defaultConfig [] [FromSigs SIGHUP; FromRestartTimeout]
          (Sim.world0 [[Sim.failsToStart "gpu"]; [Sim.healthy "gpu"]; [Sim.healthy "gpu"]]) =
      (Val (Waiting v3), w3) /\
    stopCalls (trace w3) = [Sim.failsToStart "gpu"; Sim.healthy "gpu"] /\
    startCalls (trace w3) = [Sim.failsToStart "gpu"; Sim.healthy "gpu"; Sim.healthy "gpu"].
Proof.
  exists (Sim.state true (afterChan 30000000000 false) [Sim.failsToStart "gpu"]).
  exists (snd (@start Sim.env Sim.defaultConfig [] []
                 (Sim.world0 [[Sim.failsToStart "gpu"]; [Sim.healthy "gpu"];
                              [Sim.healthy "gpu"]]))).
  exists (snd (@stopPrevious Sim.env
                 (Sim.state true (afterChan 30000000000 false) [Sim.failsToStart "gpu"])
                 (record
                    (snd (@start Sim.env Sim.defaultConfig [] []
                            (Sim.world0 [[Sim.failsToStart "gpu"]; [Sim.healthy "gpu"];
                                         [Sim.healthy "gpu"]])))
                    [ObsLog Info "Received SIGHUP, restarting." []]))).
  exists (snd (@start Sim.env Sim.defaultConfig [] [FromSigs SIGHUP]
                 (Sim.world0 [[Sim.failsToStart "gpu"]; [Sim.healthy "gpu"];
                              [Sim.healthy "gpu"]]))).
  exists (Sim.state true (afterChan 30000000000 false) [Sim.healthy "gpu"]).
  exists (snd (@start Sim.env Sim.defaultConfig [] [FromSigs SIGHUP]
                 (Sim.world0 [[Sim.failsToStart "gpu"]; [Sim.healthy "gpu"];
                              [Sim.healthy "gpu"]]))).
  exists (Sim.state true (afterChan 30000000000 true) [Sim.healthy "gpu"]).
  exists (snd (@start Sim.env Sim.defaultConfig [] [FromSigs SIGHUP; FromRestartTimeout]
                 (Sim.world0 [[Sim.failsToStart "gpu"]; [Sim.healthy "gpu"];
                              [Sim.healthy "gpu"]]))).
  vm_compute. repeat split.
Qed.

(** X1, on a concrete run: the device-ID strategy of the configuration is
    not valid, and the first pass ends [start] before any plugin is asked
    for. *)
Lemma construction_failure_ends_start_witness :
  exists w2,
    restartPass (Sim.config ["envvar"%string] "serial" false None) [] vars0
                (Sim.world0 [[Sim.healthy "gpu"]]) =
      (Val (Return
              (Some (Errorf_v "error starting plugins: %v"
                       (Errorf_v "unable to load config: %v"
                          (Errorf_v "unable to validate flags: %v"
                             (Errorf_s "invalid --device-id-strategy option: %v"
                                "serial")))))), w2) /\
    ext w2 = [[Sim.healthy "gpu"]] /\
    startCalls (trace w2) = [].
Proof.
  destruct (@construction_failure_ends_start Sim.env
              (Sim.config ["envvar"%string] "serial" false None) [] vars0
              (Sim.world0 [[Sim.healthy "gpu"]]) (Sim.world0 [[Sim.healthy "gpu"]])
              (snd (@constructPlugins Sim.env
                      (Sim.config ["envvar"%string] "serial" false None) []
                      (record (Sim.world0 [[Sim.healthy "gpu"]])
                              [ObsLog Info "Starting Plugins." []])))
              (Errorf_v "unable to load config: %v"
                 (Errorf_v "unable to validate flags: %v"
                    (Errorf_s "invalid --device-id-strategy option: %v" "serial"))))
    as (Hpass & Hext & _ & Hcalls & _).
  - reflexivity.
  - vm_compute. reflexivity.
  - eexists. split; [exact Hpass|]. split; [|exact Hcalls].
    rewrite Hext. vm_compute. reflexivity.
Defined.


(** X4, on two concrete runs: a list with one plugin that has a device,
    and a list with none. *)
Lemma no_devices_notice_iff_nothing_started_witness :
  (exists w3,
     startPlugins Sim.defaultConfig [] false
       (Sim.world0 [[Sim.noDevices "mig"; Sim.healthy "gpu"]]) =
       (Val ([Sim.noDevices "mig"; Sim.healthy "gpu"], false, None), w3) /\
     ~ In noDevicesNotice (trace w3)) /\
  (exists w3,
     startPlugins Sim.defaultConfig [] false (Sim.world0 [[Sim.noDevices "mig"]]) =
       (Val ([Sim.noDevices "mig"], false, None), w3) /\
     In noDevicesNotice (trace w3)).
Proof.
  split.
  - destruct (@no_devices_notice_iff_nothing_started Sim.env Sim.defaultConfig [] false
                (Sim.world0 [[Sim.noDevices "mig"; Sim.healthy "gpu"]])
                (snd (@constructPlugins Sim.env Sim.defaultConfig []
                        (Sim.world0 [[Sim.noDevices "mig"; Sim.healthy "gpu"]])))
                [Sim.noDevices "mig"; Sim.healthy "gpu"] [])
      as [Hrun _].
    + vm_compute. reflexivity.
    + refine (@startsOK_skip Sim.env (Sim.noDevices "mig") _ _ _ eq_refl _).
      refine (@startsOK_start Sim.env (Sim.healthy "gpu") _ _ [] _ eq_refl eq_refl _).
      exact (@startsOK_nil Sim.env _).
    + vm_compute. reflexivity.
    + eexists. split; [exact Hrun|]. vm_compute.
      intros H. repeat (destruct H as [H|H]; [discriminate H|]). exact H.
  - destruct (@no_devices_notice_iff_nothing_started Sim.env Sim.defaultConfig [] false
                (Sim.world0 [[Sim.noDevices "mig"]])
                (snd (@constructPlugins Sim.env Sim.defaultConfig []
                        (Sim.world0 [[Sim.noDevices "mig"]])))
                [Sim.noDevices "mig"] [])
      as [Hrun _].
    + vm_compute. reflexivity.
    + refine (@startsOK_skip Sim.env (Sim.noDevices "mig") _ _ _ eq_refl _).
      exact (@startsOK_nil Sim.env _).
    + vm_compute. reflexivity.
    + eexists. split; [exact Hrun|]. vm_compute. do 4 right. left. reflexivity.
Defined.

(** X6, on a concrete run: a filesystem error, the creation of the kubelet
    socket and SIGINT on one side; SIGHUP, a write to another file and
    SIGTERM on the other. *)
Lemma start_depends_on_triggers_only_witness :
  fst (start Sim.defaultConfig []
         [FromWatcherErrors (ErrExternal "queue overflow");
          FromWatcherEvents "/var/lib/kubelet/device-plugins/kubelet.sock" 1;
          FromSigs SIGINT]
         (Sim.world0 [[Sim.healthy "gpu"]; [Sim.healthy "gpu"]])) =
  fst (start Sim.defaultConfig []
         [FromSigs SIGHUP;
          FromWatcherEvents "/var/lib/kubelet/device-plugins/nvidia-gpu.sock" 2;
          FromSigs SIGTERM]
         (Sim.world0 [[Sim.healthy "gpu"]; [Sim.healthy "gpu"]])) /\
  effects (trace (snd (start Sim.defaultConfig []
         [FromWatcherErrors (ErrExternal "queue overflow");
          FromWatcherEvents "/var/lib/kubelet/device-plugins/kubelet.sock" 1;
          FromSigs SIGINT]
         (Sim.world0 [[Sim.healthy "gpu"]; [Sim.healthy "gpu"]])))) =
  [ObsStart (Sim.healthy "gpu"); ObsStop (Sim.healthy "gpu");
   ObsStart (Sim.healthy "gpu"); ObsStop (Sim.healthy "gpu"); ObsWatcherClose].
Proof.
  destruct (@start_depends_on_triggers_only Sim.env Sim.defaultConfig []
              [FromWatcherErrors (ErrExternal "queue overflow");
               FromWatcherEvents "/var/lib/kubelet/device-plugins/kubelet.sock" 1;
               FromSigs SIGINT]
              [FromSigs SIGHUP;
               FromWatcherEvents "/var/lib/kubelet/device-plugins/nvidia-gpu.sock" 2;
               FromSigs SIGTERM]
              (Sim.world0 [[Sim.healthy "gpu"]; [Sim.healthy "gpu"]]))
    as (Hfst & _ & _).
  - vm_compute. reflexivity.
  - split; [exact Hfst|]. vm_compute. reflexivity.
Defined.

